(** * mathesar/imports/csv.py: dialect validation and pasted-text splitting

    A shallow embedding of [check_dialect], [get_sv_dialect] and
    [validate_paste], together with the parts of the Python runtime they
    call ([str.split], [re.split] for the two patterns used, file
    [read]/[seek]).  The clevercsv detector and row reader are external to
    the repository and enter as section variables. *)

From Stdlib Require Import String Ascii List Bool Arith Lia.
Import ListNotations.
Set Warnings "-abstract-large-number".
Open Scope string_scope.
Open Scope list_scope.

(** ** Exceptions and results *)

(** The exception classes the module can let escape: the two imported from
    [mathesar.errors], and clevercsv's own [Error], which the row reader may
    raise from [next]. *)
Inductive exn : Type :=
| InvalidTableError
| InvalidPasteError
| CsvError.

Inductive outcome (A : Type) : Type :=
| Ok (a : A)
| Raise (e : exn).
Arguments Ok {A} a.
Arguments Raise {A} e.

(** ** Python strings *)

(** A [str] is a [string]; each [ascii] stands for the code point of the
    same number (0..255). *)

Definition nl : ascii := "010"%char.
Definition tab : ascii := "009"%char.
Definition space : ascii := " "%char.

(** [s + c] for a one-character [c]. *)
Definition str (c : ascii) : string := String c "".

(** What [\s] matches in a [str] pattern: the code points for which
    [str.isspace] holds, here those below 256. *)
Definition is_space (c : ascii) : bool :=
  let n := nat_of_ascii c in
  (((9 <=? n) && (n <=? 13)) || ((28 <=? n) && (n <=? 32))
   || (n =? 133) || (n =? 160))%nat.

(** Prepend a character to the field currently being read, the first of the
    list. *)
Definition push_front (c : ascii) (fields : list string) : list string :=
  match fields with
  | [] => [str c]
  | f :: fs => String c f :: fs
  end.

(** [s.split(sep)] for a one-character separator: every occurrence of
    [sep] ends a piece; the result is never empty. *)
Fixpoint str_split (sep : ascii) (s : string) : list string :=
  match s with
  | "" => [""]
  | String c s' =>
      if Ascii.eqb c sep then "" :: str_split sep s'
      else push_front c (str_split sep s')
  end.

(** ** Regular expressions *)

(** The fragment of [re] syntax the module uses. *)
Inductive regex : Type :=
| Lit (c : ascii)             (* a literal character, e.g. [\t] *)
| Spaces (n : nat)            (* [\s{n,}], greedy *)
| Alt (r1 r2 : regex).        (* [r1|r2], the left branch tried first *)

(** Length of the run of whitespace at the start of [s]. *)
Fixpoint span_space (s : string) : nat :=
  match s with
  | "" => 0
  | String c s' => if is_space c then S (span_space s') else 0
  end.

(** [rmatch r s]: length of the match of [r] anchored at the start of [s],
    if there is one.  [\s{n,}] takes the whole run; an alternation takes
    its first branch that matches. *)
Fixpoint rmatch (r : regex) (s : string) : option nat :=
  match r with
  | Lit c =>
      match s with
      | String d _ => if Ascii.eqb d c then Some 1 else None
      | "" => None
      end
  | Spaces n =>
      let k := span_space s in
      if (n <=? k)%nat then Some k else None
  | Alt r1 r2 =>
      match rmatch r1 s with
      | Some k => Some k
      | None => rmatch r2 s
      end
  end.

(** The scan behind [re.split]: walk the string left to right, trying the
    pattern at each position not covered by the previous match.  A match
    closes the current piece and the [skip] counter steps over the rest of
    the matched characters.  (The patterns of this module never match the
    empty string; a zero-length match is not split on.) *)
Fixpoint scan (r : regex) (skip : nat) (s : string) : list string :=
  match s with
  | "" => [""]
  | String c s' =>
      match skip with
      | S k => scan r k s'
      | 0 =>
          match rmatch r s with
          | Some (S n) => "" :: scan r n s'
          | _ => push_front c (scan r 0 s')
          end
      end
  end.

(** [re.split(r, s)] *)
Definition re_split (r : regex) (s : string) : list string := scan r 0 s.

(** ** validate_paste *)

(** [r'\s{2,}'] *)
Definition col_re : regex := Spaces 2.
(** [r'\s{2,}|\t'] *)
Definition row_re : regex := Alt (Spaces 2) (Lit tab).

(** The [for line in lines] loop of [validate_paste], with the list
    [parsed_lines] built so far. *)
Fixpoint parse_lines (num_columns : nat) (lines : list string)
    (parsed_lines : list (list string)) : outcome (list (list string)) :=
  match lines with
  | [] => Ok parsed_lines
  | line :: rest =>
      let parsed_line := re_split row_re line in
      if negb (length parsed_line =? num_columns)%nat then Raise InvalidPasteError
      else parse_lines num_columns rest (parsed_lines ++ [parsed_line])
  end.

Definition validate_paste (raw_paste : string)
  : outcome (list string * list (list string)) :=
  let lines := str_split nl raw_paste in
  if (length lines =? 0)%nat then Raise InvalidPasteError
  else
    let column_names := re_split col_re (nth 0 lines "") in
    let num_columns := length column_names in
    match parse_lines num_columns lines [] with
    | Raise e => Raise e
    | Ok parsed_lines => Ok (column_names, parsed_lines)
    end.

(** ** Vocabulary for the statements *)

(** Whether [line] re-splits into [n] fields. *)
Definition fits (n : nat) (line : string) : bool :=
  (length (re_split row_re line) =? n)%nat.

(** Whether the last character of [s] is whitespace ([false] for ""). *)
Fixpoint last_space (s : string) : bool :=
  match s with
  | "" => false
  | String c "" => is_space c
  | String _ s' => last_space s'
  end.

(** Whether the first character of [s] is whitespace ([false] for ""). *)
Definition first_space (s : string) : bool :=
  match s with
  | "" => false
  | String c _ => is_space c
  end.

(** Two field lists glued at a point where no separator starts or ends:
    the last field of the first list continues into the first field of the
    second. *)
Fixpoint join (l1 l2 : list string) : list string :=
  match l1 with
  | [] => l2
  | [f] =>
      match l2 with
      | [] => [f]
      | g :: gs => (f ++ g)%string :: gs
      end
  | f :: fs => f :: join fs l2
  end.

(** [s[n:]] *)
Fixpoint drop (n : nat) (s : string) : string :=
  match n, s with
  | 0, _ => s
  | S n', String _ s' => drop n' s'
  | S _, "" => ""
  end.

(** *** The splitting heuristic as the specification words it

    "A run of two-or-more whitespace characters OR a single tab character
    is a column separator": cut the line into its maximal runs of
    whitespace and of non-whitespace characters, call a whitespace run a
    separator when it is two or more characters long (or, where tabs count,
    when it is a tab alone), and read the fields off between separators. *)

(** The maximal runs of whitespace and non-whitespace characters of [s],
    in order. *)
Fixpoint runs (s : string) : list string :=
  match s with
  | "" => []
  | String c s' =>
      match runs s' with
      | String d run :: rest =>
          if Bool.eqb (is_space c) (is_space d)
          then String c (String d run) :: rest
          else str c :: String d run :: rest
      | _ => [str c]
      end
  end.

Definition is_separator (with_tab : bool) (run : string) : bool :=
  first_space run &&
  ((2 <=? String.length run)%nat || (with_tab && String.eqb run (str tab))).

(** Put a run in front of the field being read. *)
Definition prepend (run : string) (fields : list string) : list string :=
  match fields with
  | [] => [run]
  | f :: fs => (run ++ f)%string :: fs
  end.

Fixpoint fields_between (with_tab : bool) (rs : list string) : list string :=
  match rs with
  | [] => [""]
  | run :: rest =>
      if is_separator with_tab run then "" :: fields_between with_tab rest
      else prepend run (fields_between with_tab rest)
  end.

Definition spec_split (with_tab : bool) (s : string) : list string :=
  fields_between with_tab (runs s).

(** A pattern that cannot match at a non-whitespace character. *)
Definition space_led (r : regex) : Prop :=
  forall c s, is_space c = false -> rmatch r (String c s) = None.

(** Whether every row has as many columns as the first one. *)
Definition same_width (rows : list (list string)) : bool :=
  forallb (fun row => (length row =? length (nth 0 rows []))%nat) rows.

(** ** Files *)

(** An opened text file: its characters and the stream position. *)
Record file : Type := File { content : string; pos : nat }.

(** [file.read(size)]: up to [size] characters from the current position,
    which moves past the characters read; at or past the end of the file
    nothing is read and the position stays. *)
Definition read (size : nat) (f : file) : string * file :=
  let chars := substring (pos f) size (content f) in
  (chars, File (content f) (pos f + String.length chars)).

(** [file.seek(offset)] *)
Definition seek (offset : nat) (f : file) : file :=
  File (content f) offset.

(** ** Dialect sniffing *)

(** clevercsv's [SimpleDialect]. *)
Record dialect : Type :=
  SimpleDialect { delimiter : string; quotechar : string; escapechar : string }.

(** What [next(row_gen)] does: yield a row, raise [StopIteration], or raise
    clevercsv's [Error]. *)
Inductive step : Type :=
| Yield (row : list string)
| StopIteration
| ParserError.

Definition ALLOWED_DELIMITERS : string :=
  "," ++ str tab ++ ":| ".
Definition SAMPLE_SIZE : nat := 20000.
Definition CHECK_ROWS : nat := 10.

Section Sniffer.

(** [csv.detect.Detector().detect(sample, delimiters=...)] *)
Variable detect : string -> string -> option dialect.

(** [csv.read.reader(file, dialect)]: the reader object, and its [next],
    which reads from the file it shares with the caller. *)
Variable row_gen : Type.
Variable reader : dialect -> row_gen.
Variable next : row_gen -> file -> step * row_gen * file.

(** The [for _ in range(CHECK_ROWS)] loop of [check_dialect], [n]
    iterations left. *)
Fixpoint check_rows (n : nat) (prev_num_columns : option nat)
    (g : row_gen) (f : file) : outcome bool * file :=
  match n with
  | 0 => (Ok true, f)
  | S n' =>
      match next g f with
      | (StopIteration, _, f') => (Ok true, f')
      | (ParserError, _, f') => (Raise CsvError, f')
      | (Yield row, g', f') =>
          let num_columns := length row in
          match prev_num_columns with
          | None => check_rows n' (Some num_columns) g' f'
          | Some p =>
              if negb (p =? num_columns)%nat then (Ok false, f')
              else check_rows n' prev_num_columns g' f'
          end
      end
  end.

Definition check_dialect (f : file) (d : dialect) : outcome bool * file :=
  check_rows CHECK_ROWS None (reader d) f.

Definition get_sv_dialect (f : file) : outcome dialect * file :=
  let (sample, f1) := read SAMPLE_SIZE f in
  match detect sample ALLOWED_DELIMITERS with
  | None => (Raise InvalidTableError, f1)
  | Some d =>
      let f2 := seek 0 f1 in
      match check_dialect f2 d with
      | (Ok true, f3) => (Ok d, seek 0 f3)
      | (Ok false, f3) => (Raise InvalidTableError, f3)
      | (Raise e, f3) => (Raise e, f3)
      end
  end.

(** The rows the reader yields in its first [n] steps from [g] and [f],
    when none of those steps raises a parser error. *)
Fixpoint first_rows (n : nat) (g : row_gen) (f : file)
  : option (list (list string)) :=
  match n with
  | 0 => Some []
  | S n' =>
      match next g f with
      | (StopIteration, _, _) => Some []
      | (ParserError, _, _) => None
      | (Yield row, g', f') =>
          match first_rows n' g' f' with
          | Some rows => Some (row :: rows)
          | None => None
          end
      end
  end.

End Sniffer.

(** ** A line-based reader and a first-delimiter detector

    Small stand-ins for the clevercsv collaborators, used to run the
    functions above on concrete files. *)
Module Plain.

(** The first line of [s] and the number of characters it takes,
    its newline included. *)
Fixpoint line (s : string) : string * nat :=
  match s with
  | "" => ("", 0)
  | String c s' =>
      if Ascii.eqb c nl then ("", 1)
      else let (l, k) := line s' in (String c l, S k)
  end.

(** The fields of a line: cut at the delimiter, or the whole line when the
    dialect has no delimiter. *)
Definition fields (d : dialect) (l : string) : list string :=
  match delimiter d with
  | String c _ => str_split c l
  | "" => [l]
  end.

(** One row per line, fields cut at the delimiter; no quoting. *)
Definition next (d : dialect) (f : file) : step * dialect * file :=
  match drop (pos f) (content f) with
  | "" => (StopIteration, d, f)
  | rest =>
      let (l, k) := line rest in
      (Yield (fields d l), d, File (content f) (pos f + k))
  end.

Definition reader (d : dialect) : dialect := d.

Fixpoint mem (c : ascii) (s : string) : bool :=
  match s with
  | "" => false
  | String d s' => Ascii.eqb c d || mem c s'
  end.

(** A detector that answers only where the sample leaves no choice: the
    one allowed delimiter that occurs in it; the dialect without a
    delimiter when none occurs (an empty sample included); and no dialect
    when several occur, as in "a,:". *)
Definition detect (sample delimiters : string) : option dialect :=
  match filter (fun c => mem c sample) (list_ascii_of_string delimiters) with
  | [] => Some (SimpleDialect "" "" "")
  | [c] => Some (SimpleDialect (str c) "" "")
  | _ => None
  end.

Definition check_dialect := check_dialect dialect reader next.
Definition get_sv_dialect := get_sv_dialect detect dialect reader next.

End Plain.

(** ** The rest of the module *)

(** *** check_dialect, step by step *)

Section Stepping.

Variable row_gen : Type.
Variable next : row_gen -> file -> step * row_gen * file.

(** The reader and the file after [k] calls of [next]. *)
Fixpoint advance (k : nat) (g : row_gen) (f : file) : row_gen * file :=
  match k with
  | 0 => (g, f)
  | S k' =>
      match next g f with
      | (_, g', f') => advance k' g' f'
      end
  end.

(** The rows of the first [k] calls of [next], with the reader and the file
    they leave, when each of these calls yields a row. *)
Fixpoint yields (k : nat) (g : row_gen) (f : file)
  : option (list (list string) * row_gen * file) :=
  match k with
  | 0 => Some ([], g, f)
  | S k' =>
      match next g f with
      | (Yield row, g', f') =>
          match yields k' g' f' with
          | Some (rows, g'', f'') => Some (row :: rows, g'', f'')
          | None => None
          end
      | _ => None
      end
  end.

End Stepping.

(** *** create_db_table_from_paste *)

Section Paste.

(** The database collaborators: [create_mathesar_engine],
    [tables.create_string_column_table] and
    [records.create_records_from_paste], acting on the state of the
    database. *)
Variable database : Type.
Variable engine : Type.
Variable table : Type.
Variable create_mathesar_engine : string -> engine.
Variable create_string_column_table :
  string -> string -> list string -> engine -> database -> table * database.
Variable create_records_from_paste :
  table -> engine -> list (list string) -> list string -> database -> database.

(** A schema, as far as the function reads it: [schema.name] and
    [schema.database.name]. *)
Record schema : Type := Schema { schema_name : string; database_name : string }.

Definition create_db_table_from_paste (raw_paste name : string) (sch : schema)
    (db : database) : outcome table * database :=
  let eng := create_mathesar_engine (database_name sch) in
  match validate_paste raw_paste with
  | Raise e => (Raise e, db)
  | Ok (column_names, lines) =>
      let (tbl, db1) :=
        create_string_column_table name (schema_name sch) column_names eng db in
      let db2 := create_records_from_paste tbl eng lines column_names db1 in
      (Ok tbl, db2)
  end.

End Paste.

(** *** mathesar/utils/models.py *)

Definition sep : ascii := "/"%char.

(** [s.startswith('/')] and [s.endswith('/')] *)
Definition startswith_sep (s : string) : bool :=
  match s with
  | String c _ => Ascii.eqb c sep
  | "" => false
  end.

Fixpoint endswith_sep (s : string) : bool :=
  match s with
  | "" => false
  | String c "" => Ascii.eqb c sep
  | String _ s' => endswith_sep s'
  end.

(** [os.path.join(a, b)] of [posixpath]: an absolute [b] replaces [a];
    otherwise [b] is appended, after a separator unless [a] is empty or
    already ends with one. *)
Definition path_join (a b : string) : string :=
  if startswith_sep b then b
  else if (String.length a =? 0)%nat || endswith_sep a then (a ++ b)%string
  else (a ++ str sep ++ b)%string.

Record user_obj : Type := User { username : string }.

(** A data file instance, as far as the function reads it: [instance.user],
    which is a user or [None]. *)
Record instance : Type := Instance { user : option user_obj }.

(** [instance.user.username if instance.user else 'anonymous'] *)
Definition user_identifier (inst : instance) : string :=
  match user inst with
  | Some u => username u
  | None => "anonymous"
  end.

Definition user_directory_path (inst : instance) (filename : string) : string :=
  path_join (user_identifier inst) filename.

Section UpdateTable.

(** The values of [validated_data], the engine object, and the constant
    [SUPPORTED_TABLE_UPDATE_ARGS] of [db.tables]. *)
Variable value : Type.
Variable sa_engine : Type.
Variable SUPPORTED_TABLE_UPDATE_ARGS : list string.

(** A table, as far as the function reads it: [table.name],
    [table.schema.name] and [table.schema._sa_engine]. *)
Record sa_table : Type :=
  SaTable { table_name : string; table_schema_name : string;
            table_sa_engine : sa_engine }.

(** What [update_sa_table] ends in: the call of [db.tables.update_table],
    or a [ValidationError] carrying the dictionary of messages. *)
Inductive update_result : Type :=
| UpdateTable (name schema_name : string) (eng : sa_engine)
              (data : list (string * value))
| ValidationError (errors : list (string * string)).

Definition supported (arg : string) : bool :=
  existsb (String.eqb arg) SUPPORTED_TABLE_UPDATE_ARGS.

(** [set(validated_data) - SUPPORTED_TABLE_UPDATE_ARGS]: the keys of the
    dictionary, each once, that are not supported.  (A Python set has no
    order; the statements below only speak of membership.) *)
Definition unsupported_args (validated_data : list (string * value)) : list string :=
  filter (fun arg => negb (supported arg))
         (nodup string_dec (map fst validated_data)).

Definition update_sa_table (t : sa_table) (validated_data : list (string * value))
  : update_result :=
  let errors :=
    map (fun arg => (arg, ("Updating " ++ arg ++ " for tables is not supported.")%string))
        (unsupported_args validated_data) in
  match errors with
  | _ :: _ => ValidationError errors
  | [] => UpdateTable (table_name t) (table_schema_name t) (table_sa_engine t)
                      validated_data
  end.

End UpdateTable.

Arguments table_name {sa_engine} _.
Arguments table_schema_name {sa_engine} _.
Arguments table_sa_engine {sa_engine} _.
Arguments UpdateTable {value sa_engine} name schema_name eng data.
Arguments ValidationError {value sa_engine} errors.
Arguments update_sa_table {value sa_engine} SUPPORTED_TABLE_UPDATE_ARGS t validated_data.
Arguments unsupported_args {value} SUPPORTED_TABLE_UPDATE_ARGS validated_data.

(** *** Vocabulary for the statements about them *)

(** Whether [c] occurs in [s]. *)
Fixpoint has_char (c : ascii) (s : string) : bool :=
  match s with
  | "" => false
  | String d s' => Ascii.eqb d c || has_char c s'
  end.

(** Whether no two whitespace characters of [s] are next to each other. *)
Fixpoint no_double_space (s : string) : bool :=
  match s with
  | "" => true
  | String c s' => negb (is_space c && first_space s') && no_double_space s'
  end.

(** Text in which neither pattern finds a separator: no tab, no two
    adjacent whitespace characters. *)
Definition plain_text (s : string) : bool :=
  negb (has_char tab s) && no_double_space s.

(** What a field of a split can be: without two adjacent whitespace
    characters and, where tabs separate, without a tab. *)
Definition field_ok (with_tab : bool) (f : string) : Prop :=
  no_double_space f = true /\ (with_tab = true -> has_char tab f = false).

(** A cell of a rendered table: plain text without a newline that starts
    and ends with a non-whitespace character. *)
Definition is_cell (s : string) : bool :=
  plain_text s && negb (has_char nl s) &&
  negb (String.length s =? 0)%nat && negb (first_space s) && negb (last_space s).

(** Whether [s] is made of whitespace only. *)
Fixpoint all_space (s : string) : bool :=
  match s with
  | "" => true
  | String c s' => is_space c && all_space s'
  end.

(** [sep.join(pieces)] *)
Fixpoint str_join (sp : string) (pieces : list string) : string :=
  match pieces with
  | [] => ""
  | [x] => x
  | x :: xs => (x ++ sp ++ str_join sp xs)%string
  end.

(** A table written out: cells two spaces apart, rows on separate lines,
    no newline after the last one. *)
Definition render (rows : list (list string)) : string :=
  str_join (str nl) (map (str_join "  ") rows).

(** Number of occurrences of [c] in [s]. *)
Fixpoint count_char (c : ascii) (s : string) : nat :=
  match s with
  | "" => 0
  | String d s' => (if Ascii.eqb d c then 1 else 0) + count_char c s'
  end.

(** *** A database in memory

    Stand-ins for the database collaborators of [create_db_table_from_paste]:
    the database is the list of its tables, each with its name, schema,
    columns and records. *)
Module MemDb.

Record table : Type :=
  Table { name : string; in_schema : string; columns : list string;
          records : list (list string) }.

Definition create_mathesar_engine (database_name : string) : string :=
  database_name.

Definition create_string_column_table (name schema_name : string)
    (column_names : list string) (eng : string) (db : list table)
  : table * list table :=
  let t := Table name schema_name column_names [] in (t, db ++ [t]).

Definition load (t : table) (lines : list (list string)) (u : table) : table :=
  if String.eqb (name u) (name t)
  then Table (name u) (in_schema u) (columns u) (records u ++ lines)
  else u.

Definition create_records_from_paste (t : table) (eng : string)
    (lines : list (list string)) (column_names : list string) (db : list table)
  : list table :=
  map (load t lines) db.

Definition create_db_table_from_paste :=
  create_db_table_from_paste (list table) string table create_mathesar_engine
    create_string_column_table create_records_from_paste.

End MemDb.

(** *** A scripted reader

    A reader that plays back a fixed list of [next] outcomes, each call
    moving the file one position on; used to run [check_dialect] on
    concrete sequences of rows and parser errors. *)
Module Script.

Definition next (g : list step) (f : file) : step * list step * file :=
  match g with
  | [] => (StopIteration, [], f)
  | o :: g' => (o, g', File (content f) (S (pos f)))
  end.

Definition reader (script : list step) (_ : dialect) : list step := script.

Definition check_dialect (script : list step) :=
  check_dialect (list step) (reader script) next.

Definition get_sv_dialect (script : list step) :=
  get_sv_dialect Plain.detect (list step) (reader script) next.

End Script.

(** * Properties *)

(** ** Splitting *)

Lemma push_front_length c fields :
  fields <> [] -> length (push_front c fields) = length fields.
Proof. destruct fields; [congruence | reflexivity]. Qed.

Lemma str_split_nonempty sep s : str_split sep s <> [].
Proof.
  destruct s as [|c s]; simpl; [discriminate|].
  destruct (Ascii.eqb c sep); [discriminate|].
  destruct (str_split sep s); discriminate.
Qed.

Lemma scan_nonempty r k s : scan r k s <> [].
Proof.
  revert k; induction s as [|c s IH]; intros k; simpl; [discriminate|].
  destruct k as [|k]; [|apply IH].
  destruct (rmatch r (String c s)) as [[|n]|];
    try discriminate; destruct (scan r 0 s); discriminate.
Qed.

(** ** The line loop *)

Lemma parse_lines_ok n lines acc :
  forallb (fits n) lines = true ->
  parse_lines n lines acc = Ok (acc ++ map (re_split row_re) lines).
Proof.
  revert acc; induction lines as [|l ls IH]; intros acc H; simpl.
  - now rewrite app_nil_r.
  - simpl in H. apply andb_true_iff in H as [Hl Hls].
    unfold fits in Hl. rewrite Hl. simpl.
    rewrite IH by assumption. now rewrite <- app_assoc.
Qed.

Lemma parse_lines_raise n lines acc :
  forallb (fits n) lines = false ->
  parse_lines n lines acc = Raise InvalidPasteError.
Proof.
  revert acc; induction lines as [|l ls IH]; intros acc H; simpl in *.
  - discriminate.
  - fold (fits n l). destruct (fits n l); simpl in *; [now apply IH | reflexivity].
Qed.

Lemma forallb_false_exists {A} (p : A -> bool) (l : list A) :
  forallb p l = false -> exists x, In x l /\ p x = false.
Proof.
  induction l as [|a l IH]; simpl; [discriminate|].
  destruct (p a) eqn:E; simpl.
  - intros H. destruct (IH H) as (x & Hin & Hx). exists x; auto.
  - intros _. exists a; auto.
Qed.

(** [validate_paste] in closed form: the guard on an empty split is never
    taken, and the loop either keeps every line or raises. *)
Lemma validate_paste_eq raw :
  let lines := str_split nl raw in
  let column_names := re_split col_re (nth 0 lines "") in
  validate_paste raw =
    if forallb (fits (length column_names)) lines
    then Ok (column_names, map (re_split row_re) lines)
    else Raise InvalidPasteError.
Proof.
  intros lines column_names. unfold validate_paste.
  fold lines. fold column_names.
  destruct lines as [|l ls] eqn:E.
  - exfalso. exact (str_split_nonempty nl raw E).
  - cbn [length Nat.eqb].
    destruct (forallb (fits (length column_names)) (l :: ls)) eqn:F.
    + now rewrite parse_lines_ok.
    + now rewrite parse_lines_raise.
Qed.

(** ** Matches are local to a whitespace run *)

Lemma string_app_assoc (a b c : string) : ((a ++ b) ++ c = a ++ (b ++ c))%string.
Proof. induction a as [|x a IH]; simpl; [reflexivity | now rewrite IH]. Qed.

Lemma span_space_app x z :
  x <> "" -> last_space x = false -> span_space (x ++ z) = span_space x.
Proof.
  induction x as [|c x IH]; intros Hne Hl; [congruence|].
  simpl. destruct (is_space c) eqn:Ec; [|reflexivity].
  destruct x as [|d x].
  - simpl in Hl. congruence.
  - f_equal. apply IH; [discriminate | exact Hl].
Qed.

Lemma rmatch_app r x z :
  x <> "" -> last_space x = false -> rmatch r (x ++ z) = rmatch r x.
Proof.
  intros Hne Hl. induction r as [c|n|r1 IH1 r2 IH2]; simpl.
  - destruct x; [congruence | reflexivity].
  - now rewrite span_space_app.
  - now rewrite IH1, IH2.
Qed.

(** A match is one character long or the whole leading whitespace run. *)
Lemma rmatch_shape r s m :
  rmatch r s = Some m -> m = 1 \/ m = span_space s.
Proof.
  revert m; induction r as [c|n|r1 IH1 r2 IH2]; simpl; intros m H.
  - destruct s as [|d s]; [discriminate|].
    destruct (Ascii.eqb d c); inversion H; auto.
  - destruct (n <=? span_space s)%nat; inversion H; auto.
  - destruct (rmatch r1 s); [inversion H; subst|]; auto.
Qed.

(** After a match at [String c s], the characters left to skip lie within
    the whitespace run at the start of [s]. *)
Lemma rmatch_skip r c s n :
  rmatch r (String c s) = Some (S n) -> n <= span_space s.
Proof.
  intros H. apply rmatch_shape in H as [H|H].
  - inversion H. lia.
  - simpl in H. destruct (is_space c); [inversion H; lia | discriminate].
Qed.

Lemma col_re_space_led : space_led col_re.
Proof. intros c s Hc. unfold col_re. simpl. now rewrite Hc. Qed.

Lemma tab_is_space : is_space tab = true.
Proof. reflexivity. Qed.

Lemma row_re_space_led : space_led row_re.
Proof.
  intros c s Hc. unfold row_re. simpl. rewrite Hc. simpl.
  destruct (Ascii.eqb c tab) eqn:E; [|reflexivity].
  apply Ascii.eqb_eq in E. subst. rewrite tab_is_space in Hc. discriminate.
Qed.

(** ** Gluing field lists *)

Lemma join_cons f l1 l2 : l1 <> [] -> join (f :: l1) l2 = f :: join l1 l2.
Proof. destruct l1; [congruence | reflexivity]. Qed.

Lemma join_push_front c l1 l2 :
  l1 <> [] -> l2 <> [] -> join (push_front c l1) l2 = push_front c (join l1 l2).
Proof.
  intros H1 H2. destruct l1 as [|f [|f' fs]]; [congruence| |reflexivity].
  destruct l2; [congruence | reflexivity].
Qed.

Lemma join_length l1 l2 :
  l1 <> [] -> l2 <> [] -> length (join l1 l2) + 1 = length l1 + length l2.
Proof.
  intros H1 H2. induction l1 as [|f l1 IH]; [congruence|].
  destruct l1 as [|f' fs].
  - destruct l2; [congruence | simpl; lia].
  - rewrite join_cons by discriminate. simpl in *.
    specialize (IH ltac:(discriminate)). lia.
Qed.

Lemma join_snoc before f g after :
  join (before ++ [f]) (g :: after) = before ++ (f ++ g)%string :: after.
Proof.
  induction before as [|b before IH]; [reflexivity|].
  simpl app. rewrite join_cons, IH; [reflexivity|].
  destruct before; discriminate.
Qed.

(** ** Splitting a concatenation *)

(** If [x] ends in a non-whitespace character, no match straddles the end
    of [x], and the split of [x ++ z] is the split of [x] glued to the split
    of [z]. *)
Lemma scan_app r x z k :
  x <> "" -> last_space x = false -> k <= span_space x ->
  scan r k (x ++ z) = join (scan r k x) (scan r 0 z).
Proof.
  revert k; induction x as [|c x IH]; intros k Hne Hl Hk; [congruence|].
  assert (Step : forall n, n <= span_space x ->
            scan r n (x ++ z) = join (scan r n x) (scan r 0 z)).
  { intros n Hn. destruct x as [|d x].
    - simpl in Hn. assert (n = 0) by lia. subst n. simpl.
      destruct (scan r 0 z) eqn:E; [|reflexivity].
      exfalso. exact (scan_nonempty _ _ _ E).
    - apply IH; [discriminate | exact Hl | exact Hn]. }
  destruct k as [|k].
  - change (scan r 0 (String c x ++ z)) with
      (match rmatch r (String c x ++ z) with
       | Some (S n) => "" :: scan r n (x ++ z)
       | _ => push_front c (scan r 0 (x ++ z))
       end).
    rewrite rmatch_app by assumption.
    change (scan r 0 (String c x)) with
      (match rmatch r (String c x) with
       | Some (S n) => "" :: scan r n x
       | _ => push_front c (scan r 0 x)
       end).
    destruct (rmatch r (String c x)) as [[|n]|] eqn:M.
    + rewrite Step by lia.
      rewrite join_push_front; auto using scan_nonempty.
    + rewrite Step by (eapply rmatch_skip; eassumption).
      rewrite join_cons; auto using scan_nonempty.
    + rewrite Step by lia.
      rewrite join_push_front; auto using scan_nonempty.
  - simpl in Hk. destruct (is_space c) eqn:Ec; [|lia].
    simpl. apply Step. lia.
Qed.

(** A non-whitespace character at the end of the string ends the last
    field. *)
Lemma scan_snoc_solid r a c k :
  space_led r -> is_space c = false -> k <= span_space (a ++ str c) ->
  exists before f, scan r k (a ++ str c) = before ++ [(f ++ str c)%string].
Proof.
  intros Hr Hc. revert k; induction a as [|d a IH]; intros k Hk.
  - simpl in Hk. rewrite Hc in Hk. assert (k = 0) by lia. subst k.
    simpl. rewrite (Hr c "" Hc). exists [], "". reflexivity.
  - destruct k as [|k].
    + change (scan r 0 (String d a ++ str c)) with
        (match rmatch r (String d a ++ str c) with
         | Some (S n) => "" :: scan r n (a ++ str c)
         | _ => push_front d (scan r 0 (a ++ str c))
         end).
      assert (P : exists before f,
                 push_front d (scan r 0 (a ++ str c)) = before ++ [(f ++ str c)%string]).
      { destruct (IH 0 ltac:(lia)) as (before & f & E). rewrite E.
        destruct before as [|b before]; simpl.
        - exists [], (String d f). reflexivity.
        - exists (String d b :: before), f. reflexivity. }
      destruct (rmatch r (String d a ++ str c)) as [[|n]|] eqn:M; auto.
      apply rmatch_skip in M.
      destruct (IH n M) as (before & f & E).
      exists ("" :: before), f. now rewrite E.
    + simpl in Hk. destruct (is_space d) eqn:Ed; [|lia].
      simpl. apply IH. lia.
Qed.

(** ** The patterns against the specification's wording *)

Lemma runs_head d s : exists run rest, runs (String d s) = String d run :: rest.
Proof.
  simpl. destruct (runs s) as [|[|e run] rest].
  - exists "", []. reflexivity.
  - exists "", []. reflexivity.
  - destruct (Bool.eqb (is_space d) (is_space e)).
    + exists (String e run), rest. reflexivity.
    + exists "", (String e run :: rest). reflexivity.
Qed.

Lemma prepend_char c fields : prepend (str c) fields = push_front c fields.
Proof. destruct fields; reflexivity. Qed.

(** A non-whitespace character joins the field that follows it. *)
Lemma fields_cons_solid b c s :
  is_space c = false ->
  fields_between b (runs (String c s)) = push_front c (fields_between b (runs s)).
Proof.
  intros Hc. destruct s as [|d s]; [simpl; unfold is_separator; simpl; now rewrite Hc|].
  destruct (runs_head d s) as (run & rest & E).
  change (runs (String c (String d s))) with
    (match runs (String d s) with
     | String d run :: rest =>
         if Bool.eqb (is_space c) (is_space d)
         then String c (String d run) :: rest
         else str c :: String d run :: rest
     | _ => [str c]
     end).
  rewrite E.
  destruct (Bool.eqb (is_space c) (is_space d)) eqn:Ed.
  - apply eqb_prop in Ed. rewrite Hc in Ed.
    assert (S1 : is_separator b (String c (String d run)) = false)
      by (unfold is_separator; simpl; now rewrite Hc).
    assert (S2 : is_separator b (String d run) = false)
      by (unfold is_separator; simpl; now rewrite <- Ed).
    cbn [fields_between]. rewrite S1, S2.
    destruct (fields_between b rest); reflexivity.
  - assert (S1 : is_separator b (str c) = false)
      by (unfold is_separator; simpl; now rewrite Hc).
    change (fields_between b (str c :: String d run :: rest)) with
      (if is_separator b (str c) then "" :: fields_between b (String d run :: rest)
       else prepend (str c) (fields_between b (String d run :: rest))).
    rewrite S1. apply prepend_char.
Qed.

(** A whitespace character opens the run made of it and of the whitespace
    that follows. *)
Lemma runs_cons_space c s :
  is_space c = true ->
  exists w, String.length w = span_space s /\
            runs (String c s) = String c w :: runs (drop (span_space s) s).
Proof.
  revert c; induction s as [|d s IH]; intros c Hc.
  - exists "". split; reflexivity.
  - change (runs (String c (String d s))) with
      (match runs (String d s) with
       | String d run :: rest =>
           if Bool.eqb (is_space c) (is_space d)
           then String c (String d run) :: rest
           else str c :: String d run :: rest
       | _ => [str c]
       end).
    cbn [span_space]. destruct (is_space d) eqn:Hd.
    + destruct (IH d Hd) as (w & Hw & E). rewrite E, Hc, Hd. cbn [Bool.eqb drop].
      exists (String d w). split; [simpl; now rewrite Hw | reflexivity].
    + destruct (runs_head d s) as (run & rest & E). cbn [drop].
      rewrite E, Hc, Hd. cbn [Bool.eqb]. exists "". split; reflexivity.
Qed.

Section Wording.

(** A pattern [r] that matches a whitespace run of two or more characters
    whole and, when [with_tab] is set, a tab that is not followed by
    whitespace; nothing else. *)
Variable r : regex.
Variable with_tab : bool.
Hypothesis r_matches : forall c s,
  rmatch r (String c s) =
  if is_space c then
    match span_space s with
    | S n => Some (S (S n))
    | 0 => if with_tab && Ascii.eqb c tab then Some 1 else None
    end
  else None.

Lemma scan_is_spec_split s k :
  k <= span_space s ->
  scan r k s = fields_between with_tab (runs (drop k s)).
Proof.
  revert k; induction s as [|c s IH]; intros k Hk.
  - simpl in Hk. assert (k = 0) by lia. subst. reflexivity.
  - destruct k as [|k].
    + cbn [drop].
      change (scan r 0 (String c s)) with
        (match rmatch r (String c s) with
         | Some (S n) => "" :: scan r n s
         | _ => push_front c (scan r 0 s)
         end).
      rewrite r_matches. destruct (is_space c) eqn:Hc.
      * destruct (runs_cons_space c s Hc) as (w & Hw & E). rewrite E.
        cbn [fields_between]. unfold is_separator. cbn [first_space String.length].
        rewrite Hc, Hw.
        destruct (span_space s) as [|n] eqn:Hs.
        -- destruct w; [|discriminate]. cbn [drop] in *.
           change (String.eqb (String c "") (str tab)) with
             (Ascii.eqb c tab && true).
           rewrite andb_true_r. cbn [Nat.leb orb andb].
           destruct (with_tab && Ascii.eqb c tab).
           ++ now rewrite (IH 0) by lia.
           ++ rewrite (IH 0) by lia. cbn [drop]. symmetry. apply prepend_char.
        -- cbn [Nat.leb orb andb]. now rewrite (IH (S n)) by lia.
      * rewrite (IH 0) by lia. cbn [drop]. now rewrite fields_cons_solid.
    + simpl in Hk. destruct (is_space c); [|lia].
      cbn [scan drop]. apply IH. lia.
Qed.

End Wording.

(** [re.split] on the two patterns computes the fields the specification
    describes. *)
Lemma re_split_col_spec s : re_split col_re s = spec_split false s.
Proof.
  apply (scan_is_spec_split col_re false); [|lia].
  intros c t. unfold col_re. cbn [rmatch span_space andb].
  destruct (is_space c); [|reflexivity].
  destruct (span_space t); reflexivity.
Qed.

Lemma re_split_row_spec s : re_split row_re s = spec_split true s.
Proof.
  apply (scan_is_spec_split row_re true); [|lia].
  intros c t. unfold row_re. cbn [rmatch span_space andb].
  destruct (is_space c) eqn:Hc.
  - destruct (span_space t); reflexivity.
  - cbn [Nat.leb]. destruct (Ascii.eqb c tab) eqn:E; [|reflexivity].
    apply Ascii.eqb_eq in E. subst. rewrite tab_is_space in Hc. discriminate.
Qed.

(** ** validate_paste on the documented examples *)

(** C3, as stated, fails: on the paste
    "Name  Age\nAlice  30\nBob  40\n" the split on newlines leaves a final
    empty line, which re-splits into one field, not two, and the call
    raises instead of returning the two data rows. *)
Lemma C3_trailing_newline_raises :
  let raw := ("Name  Age" ++ str nl ++ "Alice  30" ++ str nl ++ "Bob  40" ++ str nl)%string in
  validate_paste raw = Raise InvalidPasteError /\
  validate_paste raw <> Ok (["Name"; "Age"], [["Alice"; "30"]; ["Bob"; "40"]]).
Proof. split; [reflexivity | discriminate]. Qed.

(** C3, amended: on the same paste without the final newline,
    [validate_paste] returns the column names [Name; Age] and one entry per
    line, the header line included, in the order of the lines. *)
Theorem C3_paste_example :
  validate_paste ("Name  Age" ++ str nl ++ "Alice  30" ++ str nl ++ "Bob  40")%string =
  Ok (["Name"; "Age"], [["Name"; "Age"]; ["Alice"; "30"]; ["Bob"; "40"]]).
Proof. reflexivity. Qed.

(** C5: [validate_paste] raises (its paste error, [InvalidPasteError])
    exactly when some line re-splits into a number of fields other than the
    number of column names taken from the first line, and it raises nothing
    else; the paste "Name  Age\nAlice\t30\t5\n" is such an input. *)
Theorem C5_raises_iff_count_mismatch :
  (forall raw,
     let lines := str_split nl raw in
     let column_names := re_split col_re (nth 0 lines "") in
     (validate_paste raw = Raise InvalidPasteError <->
      Exists (fun line => length (re_split row_re line) <> length column_names) lines)
     /\ (forall e, validate_paste raw = Raise e -> e = InvalidPasteError))
  /\ validate_paste ("Name  Age" ++ str nl ++ "Alice" ++ str tab ++ "30" ++ str tab ++ "5" ++ str nl)%string
     = Raise InvalidPasteError.
Proof.
  split; [|reflexivity].
  intros raw lines column_names.
  rewrite (validate_paste_eq raw). fold lines. fold column_names.
  destruct (forallb (fits (length column_names)) lines) eqn:F.
  - split; [split|]; try discriminate.
    intros H. exfalso.
    rewrite forallb_forall in F. apply Exists_exists in H as (l & Hin & Hl).
    apply F in Hin. unfold fits in Hin. apply Nat.eqb_eq in Hin. contradiction.
  - split; [split; [intros _|reflexivity]|].
    + apply Exists_exists.
      apply forallb_false_exists in F as (l & Hin & Hl).
      exists l; split; [assumption|].
      unfold fits in Hl. now apply Nat.eqb_neq in Hl.
    + intros e H; now inversion H.
Qed.

(** C6: when [validate_paste] returns, the column names are the split of the
    first line alone on [\s{2,}], and every line, the first included, is
    re-split on [\s{2,}|\t]; in the specification's words, the column names
    are the first line cut at its runs of two or more whitespace
    characters, and every line is cut at such runs and at single tabs. *)
Theorem C6_split_patterns raw column_names parsed_lines :
  validate_paste raw = Ok (column_names, parsed_lines) ->
  (column_names = re_split (Spaces 2) (nth 0 (str_split nl raw) "") /\
   parsed_lines = map (re_split (Alt (Spaces 2) (Lit tab))) (str_split nl raw)) /\
  (column_names = spec_split false (nth 0 (str_split nl raw) "") /\
   parsed_lines = map (spec_split true) (str_split nl raw)).
Proof.
  rewrite validate_paste_eq.
  destruct (forallb _ _); [|discriminate].
  intros H; inversion H; subst. split; split; try reflexivity.
  - apply re_split_col_spec.
  - apply map_ext. intros line. apply re_split_row_spec.
Qed.

Lemma C6_split_patterns_witness :
  let raw := ("a  b" ++ str nl ++ "c" ++ str tab ++ "d")%string in
  validate_paste raw = Ok (["a"; "b"], [["a"; "b"]; ["c"; "d"]]) /\
  (["a"; "b"] = re_split (Spaces 2) (nth 0 (str_split nl raw) "") /\
   [["a"; "b"]; ["c"; "d"]] = map (re_split (Alt (Spaces 2) (Lit tab))) (str_split nl raw)) /\
  (["a"; "b"] = spec_split false (nth 0 (str_split nl raw) "") /\
   [["a"; "b"]; ["c"; "d"]] = map (spec_split true) (str_split nl raw)).
Proof.
  split; [reflexivity|].
  apply (C6_split_patterns _ ["a"; "b"] [["a"; "b"]; ["c"; "d"]]). reflexivity.
Defined.

(** C7: the empty paste splits into the single line "", whose column split
    is the single name ""; [validate_paste] returns on it; and the guard on
    a split with no lines is false on every input, because [str.split]
    never returns an empty list. *)
Theorem C7_empty_paste :
  str_split nl "" = [""] /\
  re_split col_re "" = [""] /\
  validate_paste "" = Ok ([""], [[""]]) /\
  (forall raw, (length (str_split nl raw) =? 0)%nat = false).
Proof.
  repeat split.
  intros raw. apply Nat.eqb_neq.
  pose proof (str_split_nonempty nl raw).
  destruct (str_split nl raw); simpl; congruence.
Qed.

(** C9: when [validate_paste] returns, [parsed_lines] has one entry per
    line of the newline split, header included and in order (entry [i] is
    the re-split of line [i]), and every entry is as long as the list of
    column names. *)
Theorem C9_parsed_lines_shape raw column_names parsed_lines :
  validate_paste raw = Ok (column_names, parsed_lines) ->
  length parsed_lines = length (str_split nl raw) /\
  (forall i, i < length (str_split nl raw) ->
     nth i parsed_lines [] = re_split row_re (nth i (str_split nl raw) "")) /\
  Forall (fun entry => length entry = length column_names) parsed_lines.
Proof.
  rewrite validate_paste_eq.
  destruct (forallb _ _) eqn:F; [|discriminate].
  intros H; inversion H; subst; clear H.
  split; [apply length_map|]. split.
  - intros i Hi.
    rewrite (nth_indep _ [] (re_split row_re "")) by now rewrite length_map.
    apply map_nth.
  - apply Forall_forall. intros entry Hin.
    apply in_map_iff in Hin as (l & <- & Hl).
    rewrite forallb_forall in F. apply F in Hl.
    now apply Nat.eqb_eq in Hl.
Qed.

Lemma C9_parsed_lines_shape_witness :
  let raw := ("Name  Age" ++ str nl ++ "Alice  30")%string in
  length [["Name"; "Age"]; ["Alice"; "30"]] = length (str_split nl raw) /\
  (forall i, i < length (str_split nl raw) ->
     nth i [["Name"; "Age"]; ["Alice"; "30"]] [] =
     re_split row_re (nth i (str_split nl raw) "")) /\
  Forall (fun entry => length entry = length ["Name"; "Age"])
         [["Name"; "Age"]; ["Alice"; "30"]].
Proof.
  apply (C9_parsed_lines_shape _ ["Name"; "Age"] [["Name"; "Age"]; ["Alice"; "30"]]).
  reflexivity.
Defined.

(** ** Single spaces and lone tabs *)

(** A space followed by a non-whitespace character starts no separator. *)
Lemma row_re_single_space c s :
  is_space c = false -> rmatch row_re (String space (String c s)) = None.
Proof. intros Hc. unfold row_re. simpl. now rewrite Hc. Qed.

(** C8: a single space with a non-whitespace character on each side is
    not a separator for the row re-split.  If the text up to and including
    the left neighbour [c1] ends in the field [f ++ c1], and the text from
    the right neighbour [c2] on starts with the field [c2 ++ g], then the
    whole line has the one field [f ++ c1 ++ " " ++ c2 ++ g] in that
    place. *)
Theorem C8_single_space_kept a b c1 c2 :
  is_space c1 = false -> is_space c2 = false ->
  exists before f g after,
    re_split row_re (a ++ str c1) = before ++ [(f ++ str c1)%string] /\
    re_split row_re (String c2 b) = String c2 g :: after /\
    re_split row_re (a ++ str c1 ++ str space ++ String c2 b) =
      before ++ [(f ++ str c1 ++ str space ++ String c2 g)%string] ++ after.
Proof.
  intros H1 H2. unfold re_split.
  destruct (scan_snoc_solid row_re a c1 0 row_re_space_led H1 ltac:(lia))
    as (before & f & Ea).
  destruct (scan row_re 0 b) as [|g after] eqn:Eb;
    [exfalso; exact (scan_nonempty _ _ _ Eb)|].
  assert (E2 : scan row_re 0 (String c2 b) = String c2 g :: after).
  { change (scan row_re 0 (String c2 b)) with
      (match rmatch row_re (String c2 b) with
       | Some (S n) => "" :: scan row_re n b
       | _ => push_front c2 (scan row_re 0 b)
       end).
    rewrite (row_re_space_led c2 b H2), Eb. reflexivity. }
  exists before, f, g, after. repeat split; [exact Ea | exact E2 |].
  rewrite <- string_app_assoc.
  rewrite scan_app.
  - change (scan row_re 0 (str space ++ String c2 b)) with
      (match rmatch row_re (String space (String c2 b)) with
       | Some (S n) => "" :: scan row_re n (String c2 b)
       | _ => push_front space (scan row_re 0 (String c2 b))
       end).
    rewrite (row_re_single_space c2 b H2), E2, Ea. simpl push_front.
    rewrite join_snoc. simpl app at 2.
    now rewrite string_app_assoc.
  - destruct a; discriminate.
  - clear -H1. induction a as [|d a IH]; simpl; [exact H1|].
    destruct (a ++ str c1)%string eqn:E; [destruct a; discriminate | exact IH].
  - lia.
Qed.

(** "New York" comes back as one field, and so does it inside a line with
    other columns. *)
Lemma C8_single_space_kept_witness :
  re_split row_re "New York" = ["New York"] /\
  re_split row_re ("1" ++ str tab ++ "New York" ++ str tab ++ "NY")
    = ["1"; "New York"; "NY"] /\
  exists before f g after,
    re_split row_re ("1" ++ str tab ++ "Ne" ++ str "w"%char)
      = before ++ [(f ++ str "w"%char)%string] /\
    re_split row_re (String "Y"%char ("ork" ++ str tab ++ "NY"))
      = String "Y"%char g :: after /\
    re_split row_re ("1" ++ str tab ++ "Ne" ++ str "w"%char ++ str space
                     ++ String "Y"%char ("ork" ++ str tab ++ "NY")) =
      before ++ [(f ++ str "w"%char ++ str space ++ String "Y"%char g)%string] ++ after.
Proof.
  split; [reflexivity|]. split; [reflexivity|].
  apply (C8_single_space_kept ("1" ++ str tab ++ "Ne")%string
           ("ork" ++ str tab ++ "NY")%string "w"%char "Y"%char);
    reflexivity.
Defined.

(** The row pattern splits wherever the column pattern does. *)
Lemma scan_col_le_row k s :
  length (scan col_re k s) <= length (scan row_re k s).
Proof.
  revert k; induction s as [|c s IH]; intros k; [simpl; lia|].
  destruct k as [|k]; [|apply IH].
  change (scan col_re 0 (String c s)) with
    (match rmatch col_re (String c s) with
     | Some (S n) => "" :: scan col_re n s
     | _ => push_front c (scan col_re 0 s)
     end).
  change (scan row_re 0 (String c s)) with
    (match rmatch row_re (String c s) with
     | Some (S n) => "" :: scan row_re n s
     | _ => push_front c (scan row_re 0 s)
     end).
  assert (P : length (push_front c (scan col_re 0 s)) <= length (scan row_re 0 s)).
  { rewrite push_front_length by apply scan_nonempty. apply IH. }
  assert (Q : length (push_front c (scan row_re 0 s)) = length (scan row_re 0 s)).
  { apply push_front_length, scan_nonempty. }
  assert (R : rmatch row_re (String c s) =
              match rmatch col_re (String c s) with
              | Some k => Some k
              | None => if Ascii.eqb c tab then Some 1 else None
              end) by reflexivity.
  rewrite R.
  destruct (rmatch col_re (String c s)) as [[|n]|].
  - lia.
  - cbn [length]. specialize (IH n). lia.
  - destruct (Ascii.eqb c tab); cbn [length]; lia.
Qed.

(** A tab with no whitespace next to it is a separator for the row pattern
    only. *)
Lemma lone_tab_fields a b :
  last_space a = false -> first_space b = false ->
  length (re_split col_re (a ++ String tab b)) <
  length (re_split row_re (a ++ String tab b)).
Proof.
  intros Ha Hb. unfold re_split.
  assert (Hspan : span_space b = 0).
  { destruct b as [|c b]; [reflexivity|]. simpl in *. now rewrite Hb. }
  assert (C : length (scan col_re 0 (String tab b)) = length (scan col_re 0 b)).
  { simpl. rewrite Hspan. simpl. apply push_front_length, scan_nonempty. }
  assert (R : length (scan row_re 0 (String tab b)) = S (length (scan row_re 0 b))).
  { simpl. rewrite Hspan. reflexivity. }
  pose proof (scan_col_le_row 0 b) as Mb.
  destruct a as [|d a].
  - cbn [append]. lia.
  - rewrite !scan_app by (try discriminate; try assumption; lia).
    pose proof (join_length (scan col_re 0 (String d a)) (scan col_re 0 (String tab b))
                  (scan_nonempty _ _ _) (scan_nonempty _ _ _)).
    pose proof (join_length (scan row_re 0 (String d a)) (scan row_re 0 (String tab b))
                  (scan_nonempty _ _ _) (scan_nonempty _ _ _)).
    pose proof (scan_col_le_row 0 (String d a)).
    lia.
Qed.

(** C10: if the first line has a tab with no whitespace character next to
    it (the text before it is empty or ends in a non-whitespace character,
    the text after it is empty or starts with one), the row re-split of that
    line has strictly more fields than its column-name split, and
    [validate_paste] raises. *)
Theorem C10_lone_tab_in_header_raises raw a b :
  nth 0 (str_split nl raw) "" = (a ++ String tab b)%string ->
  last_space a = false -> first_space b = false ->
  length (re_split col_re (nth 0 (str_split nl raw) "")) <
    length (re_split row_re (nth 0 (str_split nl raw) ""))
  /\ validate_paste raw = Raise InvalidPasteError.
Proof.
  intros E Ha Hb.
  pose proof (lone_tab_fields a b Ha Hb) as L. rewrite <- E in L.
  split; [exact L|].
  rewrite validate_paste_eq.
  destruct (str_split nl raw) as [|l0 ls] eqn:S;
    [exfalso; exact (str_split_nonempty _ _ S)|].
  simpl nth in *. simpl forallb. unfold fits at 1.
  replace (length (re_split row_re l0) =? length (re_split col_re l0))%nat with false;
    [reflexivity|].
  symmetry. apply Nat.eqb_neq. lia.
Qed.

Lemma C10_lone_tab_in_header_raises_witness :
  let raw := ("Name" ++ str tab ++ "Age" ++ str nl ++ "Alice" ++ str tab ++ "30")%string in
  length (re_split col_re (nth 0 (str_split nl raw) "")) <
    length (re_split row_re (nth 0 (str_split nl raw) ""))
  /\ validate_paste raw = Raise InvalidPasteError.
Proof.
  apply (C10_lone_tab_in_header_raises _ "Name" "Age"); reflexivity.
Defined.

(** ** check_dialect and get_sv_dialect *)

Section SnifferFacts.

Variable detect : string -> string -> option dialect.
Variable row_gen : Type.
Variable reader : dialect -> row_gen.
Variable next : row_gen -> file -> step * row_gen * file.

(** Once the first row has fixed the column count [p], the loop answers
    whether the rows still to come all have [p] columns. *)
Lemma check_rows_some n p g f rows :
  first_rows row_gen next n g f = Some rows ->
  fst (check_rows row_gen next n (Some p) g f) =
  Ok (forallb (fun row => (length row =? p)%nat) rows).
Proof.
  revert p g f rows; induction n as [|n IH]; intros p g f rows H; simpl in *.
  - inversion H. reflexivity.
  - destruct (next g f) as [[[row| |] g'] f'].
    + destruct (first_rows row_gen next n g' f') as [rows'|] eqn:E; [|discriminate].
      inversion H; subst. simpl.
      rewrite (Nat.eqb_sym (length row) p).
      destruct (p =? length row)%nat; simpl; [now apply IH | reflexivity].
    + inversion H. reflexivity.
    + discriminate.
Qed.

Lemma check_rows_none n g f rows :
  first_rows row_gen next n g f = Some rows ->
  fst (check_rows row_gen next n None g f) = Ok (same_width rows).
Proof.
  destruct n as [|n]; intros H; simpl in *.
  - inversion H. reflexivity.
  - destruct (next g f) as [[[row| |] g'] f'].
    + destruct (first_rows row_gen next n g' f') as [rows'|] eqn:E; [|discriminate].
      inversion H; subst. unfold same_width. simpl.
      rewrite Nat.eqb_refl. simpl. now apply check_rows_some.
    + inversion H. reflexivity.
    + discriminate.
Qed.

(** C1: when the reader parses the first [CHECK_ROWS] rows of the file
    (or all of them, if the file has fewer) into [rows], [check_dialect]
    returns a boolean, and it is [true] exactly when every row of [rows]
    has the column count of the first one. *)
Theorem C1_check_dialect_iff_same_width f d rows :
  first_rows row_gen next CHECK_ROWS (reader d) f = Some rows ->
  length rows <= CHECK_ROWS /\
  exists b, fst (check_dialect row_gen reader next f d) = Ok b /\
    (b = true <-> forall row, In row rows -> length row = length (nth 0 rows [])).
Proof.
  intros H. split.
  - clear -H. revert H. generalize (reader d), CHECK_ROWS. intros g n.
    revert g f rows; induction n as [|n IH]; intros g f rows H; simpl in *.
    + inversion H. simpl. lia.
    + destruct (next g f) as [[[row| |] g'] f']; try discriminate.
      * destruct (first_rows row_gen next n g' f') as [rows'|] eqn:E; [|discriminate].
        inversion H; subst. simpl. apply IH in E. lia.
      * inversion H. simpl. lia.
  - exists (same_width rows). split.
    + unfold check_dialect. now apply check_rows_none.
    + unfold same_width. rewrite forallb_forall. split.
      * intros A row Hin. apply Nat.eqb_eq. now apply A.
      * intros A row Hin. apply Nat.eqb_eq. now apply A.
Qed.

(** C2, amended: when the detector returns no dialect, [get_sv_dialect]
    raises [InvalidTableError], the same exception it raises when a
    detected dialect fails [check_dialect]. *)
Theorem C2_both_failures_raise_InvalidTableError f1 f2 d :
  detect (fst (read SAMPLE_SIZE f1)) ALLOWED_DELIMITERS = None ->
  detect (fst (read SAMPLE_SIZE f2)) ALLOWED_DELIMITERS = Some d ->
  fst (check_dialect row_gen reader next (seek 0 (snd (read SAMPLE_SIZE f2))) d) = Ok false ->
  fst (get_sv_dialect detect row_gen reader next f1) = Raise InvalidTableError /\
  fst (get_sv_dialect detect row_gen reader next f2) = Raise InvalidTableError.
Proof.
  intros H1 H2 H3. unfold get_sv_dialect.
  destruct (read SAMPLE_SIZE f1) as [s1 g1], (read SAMPLE_SIZE f2) as [s2 g2].
  simpl in *. rewrite H1, H2. split; [reflexivity|].
  destruct (check_dialect row_gen reader next (seek 0 g2) d) as [[[|]|e] f3];
    simpl in *; congruence.
Qed.

(** C4: when [get_sv_dialect] returns a dialect, the file it leaves behind
    is positioned at offset 0. *)
Theorem C4_success_rewinds f d :
  fst (get_sv_dialect detect row_gen reader next f) = Ok d ->
  pos (snd (get_sv_dialect detect row_gen reader next f)) = 0.
Proof.
  unfold get_sv_dialect.
  destruct (read SAMPLE_SIZE f) as [sample f1].
  destruct (detect sample ALLOWED_DELIMITERS) as [d'|]; [|discriminate].
  destruct (check_dialect row_gen reader next (seek 0 f1) d') as [[[|]|e] f3];
    simpl; try discriminate.
  reflexivity.
Qed.

End SnifferFacts.

(** With the line-based reader: "a,b\n1,2,3\n" is refused, and the three
    rows of "a,b,c\n1,2,3\n4,5,6\n", fewer than [CHECK_ROWS], are
    accepted. *)
Lemma C1_check_dialect_iff_same_width_witness :
  let f := File ("a,b" ++ str nl ++ "1,2,3" ++ str nl) 0 in
  let d := SimpleDialect "," "" "" in
  let rows := [["a"; "b"]; ["1"; "2"; "3"]] in
  fst (Plain.check_dialect f d) = Ok false /\
  fst (Plain.check_dialect
         (File ("a,b,c" ++ str nl ++ "1,2,3" ++ str nl ++ "4,5,6" ++ str nl) 0) d)
    = Ok true /\
  length rows <= CHECK_ROWS /\
  exists b, fst (Plain.check_dialect f d) = Ok b /\
    (b = true <-> forall row, In row rows -> length row = length (nth 0 rows [])).
Proof.
  split; [reflexivity|]. split; [reflexivity|].
  apply (C1_check_dialect_iff_same_width dialect Plain.reader Plain.next).
  reflexivity.
Defined.

(** C2, as stated, fails: on the file "a,:" the detector finds no dialect
    and [get_sv_dialect] raises [InvalidTableError], not an exception of
    another kind; a file whose detected dialect fails the row check raises
    the very same exception. *)
Lemma C2_no_distinct_detection_error :
  let f := File "a,:" 0 in
  Plain.detect (fst (read SAMPLE_SIZE f)) ALLOWED_DELIMITERS = None /\
  ~ (exists e, fst (Plain.get_sv_dialect f) = Raise e /\ e <> InvalidTableError) /\
  fst (Plain.get_sv_dialect f) =
  fst (Plain.get_sv_dialect (File ("a,b" ++ str nl ++ "1,2,3" ++ str nl) 0)).
Proof.
  split; [reflexivity|]. split; [|reflexivity].
  intros (e & H & Hne). apply Hne.
  assert (E : fst (Plain.get_sv_dialect (File "a,:" 0)) = Raise InvalidTableError)
    by reflexivity.
  rewrite E in H. now inversion H.
Qed.

Lemma C2_both_failures_raise_InvalidTableError_witness :
  fst (Plain.get_sv_dialect (File "a,:" 0)) = Raise InvalidTableError /\
  fst (Plain.get_sv_dialect (File ("a,b" ++ str nl ++ "1,2,3" ++ str nl) 0))
    = Raise InvalidTableError.
Proof.
  apply (C2_both_failures_raise_InvalidTableError Plain.detect dialect Plain.reader
           Plain.next (File "a,:" 0) (File ("a,b" ++ str nl ++ "1,2,3" ++ str nl) 0)
           (SimpleDialect "," "" ""));
    reflexivity.
Defined.

Lemma C4_success_rewinds_witness :
  let f := File ("a,b,c" ++ str nl ++ "1,2,3" ++ str nl ++ "4,5,6" ++ str nl) 0 in
  fst (Plain.get_sv_dialect f) = Ok (SimpleDialect "," "" "") /\
  pos (snd (Plain.get_sv_dialect f)) = 0.
Proof.
  split; [reflexivity|].
  apply (C4_success_rewinds Plain.detect dialect Plain.reader Plain.next _
           (SimpleDialect "," "" "")).
  reflexivity.
Defined.

(** * Further properties *)

(** ** What the two patterns match *)

Lemma rmatch_col_re c s :
  rmatch col_re (String c s) =
  if is_space c then
    match span_space s with
    | S n => Some (S (S n))
    | 0 => None
    end
  else None.
Proof.
  unfold col_re. cbn [rmatch span_space].
  destruct (is_space c); [|reflexivity].
  destruct (span_space s); reflexivity.
Qed.

Lemma rmatch_row_re c s :
  rmatch row_re (String c s) =
  if is_space c then
    match span_space s with
    | S n => Some (S (S n))
    | 0 => if Ascii.eqb c tab then Some 1 else None
    end
  else None.
Proof.
  unfold row_re. cbn [rmatch span_space].
  destruct (is_space c) eqn:Hc.
  - destruct (span_space s); reflexivity.
  - cbn [Nat.leb]. destruct (Ascii.eqb c tab) eqn:E; [|reflexivity].
    apply Ascii.eqb_eq in E. subst. rewrite tab_is_space in Hc. discriminate.
Qed.

Lemma scan_unfold r c s :
  scan r 0 (String c s) =
  match rmatch r (String c s) with
  | Some (S n) => "" :: scan r n s
  | _ => push_front c (scan r 0 s)
  end.
Proof. reflexivity. Qed.

Lemma span_zero_first_space s : span_space s = 0 -> first_space s = false.
Proof. destruct s as [|c s]; simpl; [reflexivity|]. destruct (is_space c); [discriminate | reflexivity]. Qed.

Lemma first_space_span_zero s : first_space s = false -> span_space s = 0.
Proof. destruct s as [|c s]; simpl; [reflexivity|]. now intros ->. Qed.

(** ** The header line comes back as the first row *)

Lemma is_separator_mono run :
  is_separator false run = true -> is_separator true run = true.
Proof.
  unfold is_separator. destruct (first_space run); [|discriminate].
  destruct (2 <=? String.length run)%nat; [reflexivity | discriminate].
Qed.

Lemma fields_between_not_nil b rs : fields_between b rs <> [].
Proof.
  destruct rs as [|run rs]; simpl; [discriminate|].
  destruct (is_separator b run); [discriminate|].
  destruct (fields_between b rs); discriminate.
Qed.

Lemma prepend_length run fields :
  fields <> [] -> length (prepend run fields) = length fields.
Proof. destruct fields; [congruence | reflexivity]. Qed.

Lemma fields_between_le rs :
  length (fields_between false rs) <= length (fields_between true rs).
Proof.
  induction rs as [|run rs IH]; simpl; [lia|].
  destruct (is_separator false run) eqn:E.
  - rewrite (is_separator_mono run E). simpl. lia.
  - rewrite prepend_length by apply fields_between_not_nil.
    destruct (is_separator true run); simpl.
    + lia.
    + rewrite prepend_length by apply fields_between_not_nil. exact IH.
Qed.

(** When both patterns find the same number of fields, they find the same
    fields. *)
Lemma fields_between_same_length rs :
  length (fields_between false rs) = length (fields_between true rs) ->
  fields_between false rs = fields_between true rs.
Proof.
  induction rs as [|run rs IH]; simpl; [reflexivity|].
  pose proof (fields_between_le rs) as Le.
  destruct (is_separator false run) eqn:E.
  - rewrite (is_separator_mono run E). simpl. intros H. f_equal. apply IH. lia.
  - rewrite prepend_length by apply fields_between_not_nil.
    destruct (is_separator true run); simpl.
    + intros H. lia.
    + rewrite prepend_length by apply fields_between_not_nil.
      intros H. now rewrite IH.
Qed.

Lemma same_count_same_fields line :
  length (re_split row_re line) = length (re_split col_re line) ->
  re_split row_re line = re_split col_re line.
Proof.
  rewrite re_split_row_spec, re_split_col_spec. unfold spec_split.
  intros H. symmetry. now apply fields_between_same_length.
Qed.

(** X1: on success the column names are not empty and [parsed_lines] starts
    with them: the header line is returned once as the column names and
    once more as the first row. *)
Theorem paste_header_is_first_row raw column_names parsed_lines :
  validate_paste raw = Ok (column_names, parsed_lines) ->
  column_names <> [] /\
  exists rest, parsed_lines = column_names :: rest.
Proof.
  rewrite validate_paste_eq.
  destruct (forallb _ _) eqn:F; [|discriminate].
  intros H; inversion H; subst; clear H.
  split; [apply scan_nonempty|].
  destruct (str_split nl raw) as [|l0 ls] eqn:E;
    [exfalso; exact (str_split_nonempty _ _ E)|].
  cbn [nth map] in *. cbn [forallb] in F.
  apply andb_true_iff in F as [F0 _]. apply Nat.eqb_eq in F0.
  exists (map (re_split row_re) ls). f_equal. now apply same_count_same_fields.
Qed.

Lemma paste_header_is_first_row_witness :
  let raw := ("Name  Age" ++ str nl ++ "Alice  30")%string in
  ["Name"; "Age"] <> [] /\
  exists rest, [["Name"; "Age"]; ["Alice"; "30"]] = ["Name"; "Age"] :: rest.
Proof.
  apply (paste_header_is_first_row
           ("Name  Age" ++ str nl ++ "Alice  30")%string).
  reflexivity.
Defined.

(** ** No separator is left inside a field *)

Section Fields.

Variable r : regex.
Variable with_tab : bool.
Hypothesis r_matches : forall c s,
  rmatch r (String c s) =
  if is_space c then
    match span_space s with
    | S n => Some (S (S n))
    | 0 => if with_tab && Ascii.eqb c tab then Some 1 else None
    end
  else None.

(** Where the text starts with a non-whitespace character, so does its
    first field. *)
Lemma scan_head_solid s :
  first_space s = false -> first_space (hd "" (scan r 0 s)) = false.
Proof.
  destruct s as [|c s]; [reflexivity|]. cbn [first_space]. intros Hc.
  rewrite scan_unfold, r_matches, Hc.
  destruct (scan r 0 s); simpl; exact Hc.
Qed.

Lemma scan_fields_ok s k :
  k <= span_space s -> Forall (field_ok with_tab) (scan r k s).
Proof.
  revert k; induction s as [|c s IH]; intros k Hk.
  - destruct k; constructor; try constructor; try reflexivity; intros _; reflexivity.
  - destruct k as [|k].
    + rewrite scan_unfold, r_matches.
      assert (Push : (is_space c = true -> span_space s = 0) ->
                     (with_tab = true -> Ascii.eqb c tab = false) ->
                     Forall (field_ok with_tab) (push_front c (scan r 0 s))).
      { intros Hsp Htab. pose proof (IH 0 ltac:(lia)) as A.
        pose proof (scan_head_solid s) as Hd.
        destruct (scan r 0 s) as [|f fs];
          [constructor; [split; [simpl; now rewrite andb_false_r | intros W; simpl; now rewrite (Htab W)] | constructor]|].
        inversion A as [|? ? [Hf1 Hf2] Hfs]; subst. constructor; [|exact Hfs].
        split.
        - cbn [no_double_space]. rewrite Hf1, andb_true_r.
          destruct (is_space c) eqn:Hc; [|reflexivity].
          simpl in Hd. rewrite Hd; [reflexivity|].
          apply span_zero_first_space. now apply Hsp.
        - intros W. cbn [has_char]. now rewrite (Htab W), (Hf2 W). }
      destruct (is_space c) eqn:Hc.
      * destruct (span_space s) as [|n] eqn:Hs.
        -- destruct with_tab; cbn [andb].
           ++ destruct (Ascii.eqb c tab) eqn:Et.
              ** constructor; [split; [reflexivity | intros _; reflexivity]|].
                 apply IH. lia.
              ** apply Push; auto.
           ++ apply Push; [auto | discriminate].
        -- constructor; [split; [reflexivity | intros _; reflexivity]|].
           apply IH. lia.
      * apply Push; [discriminate|]. intros _.
        destruct (Ascii.eqb c tab) eqn:Et; [|reflexivity].
        apply Ascii.eqb_eq in Et. subst. rewrite tab_is_space in Hc. discriminate.
    + simpl in Hk. destruct (is_space c); [|lia].
      cbn [scan]. apply IH. lia.
Qed.

(** Text without a separator is a single field. *)
Lemma scan_plain s :
  no_double_space s = true -> (with_tab = true -> has_char tab s = false) ->
  scan r 0 s = [s].
Proof.
  induction s as [|c s IH]; [reflexivity|].
  cbn [no_double_space has_char]. intros Hn Ht.
  apply andb_true_iff in Hn as [Hc Hn].
  rewrite scan_unfold, r_matches.
  assert (Hs : forall W : with_tab = true, has_char tab s = false).
  { intros W. specialize (Ht W). now apply orb_false_iff in Ht. }
  rewrite (IH Hn Hs).
  destruct (is_space c) eqn:Ec; [|reflexivity].
  simpl in Hc. apply negb_true_iff in Hc.
  rewrite (first_space_span_zero s Hc).
  destruct with_tab; [|reflexivity]. cbn [andb].
  specialize (Ht eq_refl). apply orb_false_iff in Ht as [-> _]. reflexivity.
Qed.

(** Stepping over a whole run of whitespace. *)
Lemma scan_skip_run w y :
  scan r (String.length w) (w ++ y) = scan r 0 y.
Proof. induction w as [|c w IH]; [reflexivity | exact IH]. Qed.

Lemma span_space_run w y :
  all_space w = true -> first_space y = false ->
  span_space (w ++ y) = String.length w.
Proof.
  intros Hw Hy. induction w as [|c w IH]; [now apply first_space_span_zero|].
  simpl in *. apply andb_true_iff in Hw as [-> Hw]. now rewrite IH.
Qed.

(** A run of two or more whitespace characters is one separator. *)
Lemma scan_run w y :
  all_space w = true -> 2 <= String.length w -> first_space y = false ->
  scan r 0 (w ++ y) = "" :: scan r 0 y.
Proof.
  intros Hw Hl Hy. destruct w as [|c w]; [simpl in Hl; lia|].
  change (String c w ++ y)%string with (String c (w ++ y)).
  rewrite scan_unfold, r_matches.
  simpl in Hw. apply andb_true_iff in Hw as [-> Hw].
  rewrite (span_space_run w y Hw Hy).
  destruct (String.length w) as [|n] eqn:E; [simpl in Hl; lia|].
  rewrite <- E. now rewrite scan_skip_run.
Qed.

End Fields.

Lemma col_re_matches c s :
  rmatch col_re (String c s) =
  if is_space c then
    match span_space s with
    | S n => Some (S (S n))
    | 0 => if false && Ascii.eqb c tab then Some 1 else None
    end
  else None.
Proof. exact (rmatch_col_re c s). Qed.

Lemma row_re_matches c s :
  rmatch row_re (String c s) =
  if is_space c then
    match span_space s with
    | S n => Some (S (S n))
    | 0 => if true && Ascii.eqb c tab then Some 1 else None
    end
  else None.
Proof. exact (rmatch_row_re c s). Qed.

(** What a successful call returns, line by line. *)
Lemma validate_paste_ok raw column_names parsed_lines :
  validate_paste raw = Ok (column_names, parsed_lines) ->
  exists l0 ls,
    str_split nl raw = l0 :: ls /\
    column_names = re_split col_re l0 /\
    column_names = re_split row_re l0 /\
    parsed_lines = map (re_split row_re) (l0 :: ls) /\
    Forall (fun l => length (re_split row_re l) = length column_names) (l0 :: ls).
Proof.
  rewrite validate_paste_eq.
  destruct (forallb _ _) eqn:F; [|discriminate].
  intros H; inversion H; subst; clear H.
  destruct (str_split nl raw) as [|l0 ls] eqn:E;
    [exfalso; exact (str_split_nonempty _ _ E)|].
  cbn [nth] in *. exists l0, ls.
  assert (A : Forall (fun l => length (re_split row_re l) = length (re_split col_re l0))
                     (l0 :: ls)).
  { apply Forall_forall. intros l Hl. rewrite forallb_forall in F.
    apply Nat.eqb_eq. exact (F l Hl). }
  repeat split; try assumption.
  symmetry. apply same_count_same_fields. now inversion A.
Qed.

Lemma row_fields_plain line :
  Forall (fun f => plain_text f = true) (re_split row_re line).
Proof.
  pose proof (scan_fields_ok row_re true row_re_matches line 0 ltac:(lia)) as A.
  apply Forall_forall. intros f Hf. rewrite Forall_forall in A.
  destruct (A f Hf) as [Hn Ht]. unfold plain_text. now rewrite Hn, (Ht eq_refl).
Qed.

(** X2: no cell that [validate_paste] returns, column name or row field,
    contains a tab or two adjacent whitespace characters: whatever
    separated the columns is gone from the data. *)
Theorem paste_cells_hold_no_separator raw column_names parsed_lines :
  validate_paste raw = Ok (column_names, parsed_lines) ->
  Forall (fun f => plain_text f = true) column_names /\
  Forall (Forall (fun f => plain_text f = true)) parsed_lines.
Proof.
  intros H. apply validate_paste_ok in H as (l0 & ls & _ & _ & Hc & Hp & _).
  subst. split; [apply row_fields_plain|].
  apply Forall_forall. intros row Hrow.
  apply in_map_iff in Hrow as (l & <- & _). apply row_fields_plain.
Qed.

Lemma paste_cells_hold_no_separator_witness :
  Forall (fun f => plain_text f = true) ["a b"; "c"] /\
  Forall (Forall (fun f => plain_text f = true)) [["a b"; "c"]; ["d"; "e"]].
Proof.
  apply (paste_cells_hold_no_separator
           ("a b " ++ str tab ++ " c" ++ str nl ++ "d" ++ str tab ++ str tab ++ "e")%string).
  reflexivity.
Defined.

(** ** Runs of whitespace between columns *)

Lemma string_app_empty_r (a : string) : (a ++ "")%string = a.
Proof. induction a as [|x a IH]; simpl; [reflexivity | now rewrite IH]. Qed.

Lemma join_empty_head l1 l2 : l1 <> [] -> join l1 ("" :: l2) = l1 ++ l2.
Proof.
  induction l1 as [|f l1 IH]; [congruence|]. intros _.
  destruct l1 as [|f' fs].
  - simpl. now rewrite string_app_empty_r.
  - rewrite join_cons by discriminate. rewrite IH by discriminate. reflexivity.
Qed.

Lemma scan_around_run r with_tab x w y :
  (forall c s,
     rmatch r (String c s) =
     if is_space c then
       match span_space s with
       | S n => Some (S (S n))
       | 0 => if with_tab && Ascii.eqb c tab then Some 1 else None
       end
     else None) ->
  last_space x = false -> all_space w = true -> 2 <= String.length w ->
  first_space y = false ->
  scan r 0 (x ++ w ++ y) = scan r 0 x ++ scan r 0 y.
Proof.
  intros Hr Hx Hw Hl Hy.
  pose proof (scan_run r with_tab Hr w y Hw Hl Hy) as R.
  destruct x as [|c x]; [exact R|].
  rewrite scan_app by (try discriminate; try assumption; lia).
  rewrite R. apply join_empty_head, scan_nonempty.
Qed.

(** X3: a run of two or more whitespace characters, whatever they are, between
    two pieces of text that do not touch it with whitespace is exactly one
    separator, for the column names and for the rows: the fields are those
    of the left piece followed by those of the right piece.  Two tabs in a
    row therefore do not enclose an empty cell. *)
Theorem whitespace_run_is_one_separator x w y :
  last_space x = false -> all_space w = true -> 2 <= String.length w ->
  first_space y = false ->
  re_split col_re (x ++ w ++ y) = re_split col_re x ++ re_split col_re y /\
  re_split row_re (x ++ w ++ y) = re_split row_re x ++ re_split row_re y.
Proof.
  intros Hx Hw Hl Hy. split.
  - exact (scan_around_run col_re false x w y col_re_matches Hx Hw Hl Hy).
  - exact (scan_around_run row_re true x w y row_re_matches Hx Hw Hl Hy).
Qed.

Lemma whitespace_run_is_one_separator_witness :
  re_split row_re ("a" ++ str tab ++ str tab ++ "b") = ["a"; "b"] /\
  re_split col_re ("a" ++ (str tab ++ str tab) ++ "b")
    = re_split col_re "a" ++ re_split col_re "b" /\
  re_split row_re ("a" ++ (str tab ++ str tab) ++ "b")
    = re_split row_re "a" ++ re_split row_re "b".
Proof.
  split; [reflexivity|].
  apply (whitespace_run_is_one_separator "a" (str tab ++ str tab) "b");
    reflexivity.
Defined.

(** ** Splitting into lines *)

Lemma str_split_no_sep c s : has_char c s = false -> str_split c s = [s].
Proof.
  induction s as [|d s IH]; [reflexivity|].
  cbn [has_char str_split]. intros H. apply orb_false_iff in H as [-> H].
  now rewrite (IH H).
Qed.

Lemma str_split_app c l rest :
  has_char c l = false ->
  str_split c (l ++ String c rest) = l :: str_split c rest.
Proof.
  induction l as [|d l IH]; intros H.
  - simpl. now rewrite Ascii.eqb_refl.
  - cbn [has_char] in H. apply orb_false_iff in H as [Hd H].
    cbn [append str_split]. now rewrite Hd, (IH H).
Qed.

Lemma str_join_cons sp x y ys :
  str_join sp (x :: y :: ys) = (x ++ sp ++ str_join sp (y :: ys))%string.
Proof. reflexivity. Qed.

(** ['\n'.join(lines).split('\n')] gives the lines back. *)
Lemma str_split_join lines :
  lines <> [] -> Forall (fun l => has_char nl l = false) lines ->
  str_split nl (str_join (str nl) lines) = lines.
Proof.
  induction lines as [|l lines IH]; [congruence|]. intros _ H.
  inversion H as [|? ? Hl Hls]; subst.
  destruct lines as [|l' lines]; [now apply str_split_no_sep|].
  rewrite str_join_cons. cbn [str append].
  rewrite str_split_app by assumption.
  now rewrite IH.
Qed.

Lemma str_split_snoc c s :
  str_split c (s ++ str c) = str_split c s ++ [""].
Proof.
  induction s as [|d s IH]; simpl.
  - now rewrite Ascii.eqb_refl.
  - rewrite IH. destruct (Ascii.eqb d c); [reflexivity|].
    pose proof (str_split_nonempty c s).
    destruct (str_split c s); [congruence | reflexivity].
Qed.

Lemma str_split_length c s :
  length (str_split c s) = S (count_char c s).
Proof.
  induction s as [|d s IH]; [reflexivity|]. simpl.
  destruct (Ascii.eqb d c); simpl.
  - now rewrite IH.
  - rewrite push_front_length by apply str_split_nonempty. exact IH.
Qed.

(** X5: [validate_paste] returns one row per line: one more than the paste has
    newline characters. *)
Theorem paste_row_count raw column_names parsed_lines :
  validate_paste raw = Ok (column_names, parsed_lines) ->
  length parsed_lines = S (count_char nl raw).
Proof.
  intros H. apply validate_paste_ok in H as (l0 & ls & E & _ & _ & Hp & _).
  subst. rewrite length_map, <- E. apply str_split_length.
Qed.

Lemma paste_row_count_witness :
  length [["a"; "b"]; ["c"; "d"]; ["e"; "f"]] =
  S (count_char nl ("a  b" ++ str nl ++ "c  d" ++ str nl ++ "e  f")).
Proof.
  apply (paste_row_count _ ["a"; "b"]). reflexivity.
Defined.

(** ** Blank lines *)

Lemma fits_empty n : fits n "" = (1 =? n)%nat.
Proof. reflexivity. Qed.

Lemma blank_line_raises raw :
  In "" (str_split nl raw) ->
  length (re_split col_re (nth 0 (str_split nl raw) "")) <> 1 ->
  validate_paste raw = Raise InvalidPasteError.
Proof.
  intros Hin Hn. rewrite validate_paste_eq.
  destruct (forallb _ _) eqn:F; [|reflexivity].
  rewrite forallb_forall in F. specialize (F "" Hin).
  rewrite fits_empty in F. apply Nat.eqb_eq in F. congruence.
Qed.

(** X6: a paste with an empty line, anywhere, is refused unless the header
    has exactly one column. *)
Theorem paste_blank_line_refused raw :
  In "" (str_split nl raw) ->
  length (re_split col_re (nth 0 (str_split nl raw) "")) <> 1 ->
  validate_paste raw = Raise InvalidPasteError.
Proof.
  intros Hin Hn. rewrite validate_paste_eq.
  destruct (forallb _ _) eqn:F; [|reflexivity].
  rewrite forallb_forall in F. specialize (F "" Hin).
  rewrite fits_empty in F. apply Nat.eqb_eq in F. congruence.
Qed.

Lemma paste_blank_line_refused_witness :
  validate_paste ("a  b" ++ str nl ++ str nl ++ "c  d") = Raise InvalidPasteError.
Proof.
  apply paste_blank_line_refused.
  - simpl. auto.
  - simpl. lia.
Defined.

(** X7: a paste that ends with a newline is refused unless its header has
    exactly one column: the text after the last newline counts as one more,
    empty, line. *)
Theorem paste_trailing_newline_refused raw :
  length (re_split col_re (nth 0 (str_split nl raw) "")) <> 1 ->
  validate_paste (raw ++ str nl) = Raise InvalidPasteError.
Proof.
  intros Hn. apply blank_line_raises.
  - rewrite str_split_snoc. apply in_or_app. right. now left.
  - rewrite str_split_snoc. rewrite app_nth1; [exact Hn|].
    pose proof (str_split_nonempty nl raw).
    destruct (str_split nl raw); simpl; [congruence | lia].
Qed.

Lemma paste_trailing_newline_refused_witness :
  validate_paste (("Name  Age" ++ str nl ++ "Alice  30") ++ str nl)
    = Raise InvalidPasteError.
Proof.
  apply paste_trailing_newline_refused. simpl. lia.
Defined.

(** ** Text without separators *)

(** X8: a paste in which no line has a tab or two adjacent whitespace
    characters is a table of one column: the first line is its name and
    every line, the first included, is a row of one cell. *)
Theorem plain_paste_is_one_column raw :
  Forall (fun l => plain_text l = true) (str_split nl raw) ->
  validate_paste raw =
    Ok ([nth 0 (str_split nl raw) ""], map (fun l => [l]) (str_split nl raw)).
Proof.
  intros H. rewrite validate_paste_eq.
  assert (Row : forall l, In l (str_split nl raw) -> re_split row_re l = [l]).
  { intros l Hl. rewrite Forall_forall in H. specialize (H l Hl).
    apply andb_true_iff in H as [Ht Hd]. apply negb_true_iff in Ht.
    apply (scan_plain row_re true row_re_matches); auto. }
  assert (Col : re_split col_re (nth 0 (str_split nl raw) "")
                = [nth 0 (str_split nl raw) ""]).
  { pose proof (str_split_nonempty nl raw) as Ne.
    destruct (str_split nl raw) as [|l0 ls]; [congruence|]. cbn [nth].
    inversion H as [|? ? H0 _]; subst.
    apply andb_true_iff in H0 as [_ Hd].
    apply (scan_plain col_re false col_re_matches); [assumption | discriminate]. }
  rewrite Col.
  replace (forallb _ _) with true.
  - f_equal. f_equal. apply map_ext_in. exact Row.
  - symmetry. apply forallb_forall. intros l Hl. unfold fits.
    now rewrite (Row l Hl).
Qed.

Lemma plain_paste_is_one_column_witness :
  validate_paste ("New York" ++ str nl ++ "Los Angeles") =
    Ok (["New York"], [["New York"]; ["Los Angeles"]]).
Proof.
  apply (plain_paste_is_one_column ("New York" ++ str nl ++ "Los Angeles")).
  repeat constructor.
Defined.

(** ** Reading back a rendered table *)

Lemma has_char_app c a b :
  has_char c (a ++ b) = has_char c a || has_char c b.
Proof.
  induction a as [|d a IH]; [reflexivity|]. simpl. rewrite IH.
  now rewrite orb_assoc.
Qed.

Lemma first_space_app s t :
  s <> "" -> first_space (s ++ t) = first_space s.
Proof. destruct s; [congruence | reflexivity]. Qed.

Lemma is_cell_inv s :
  is_cell s = true ->
  no_double_space s = true /\ has_char tab s = false /\ has_char nl s = false /\
  s <> "" /\ first_space s = false /\ last_space s = false.
Proof.
  unfold is_cell, plain_text. intros H.
  repeat (apply andb_true_iff in H as [H ?]).
  repeat match goal with
         | A : negb _ = true |- _ => apply negb_true_iff in A
         end.
  repeat split; try assumption.
  intros ->. discriminate.
Qed.

Lemma str_join_first_space sp cells :
  cells <> [] -> Forall (fun c => is_cell c = true) cells ->
  first_space (str_join sp cells) = false.
Proof.
  destruct cells as [|x [|y ys]]; [congruence| |]; intros _ H;
    inversion H as [|? ? Hx _]; subst;
    apply is_cell_inv in Hx as (_ & _ & _ & Hne & Hf & _).
  - exact Hf.
  - rewrite str_join_cons, first_space_app by assumption. exact Hf.
Qed.

(** A line of cells two spaces apart splits back into its cells. *)
Lemma split_cells r with_tab cells :
  (forall c s,
     rmatch r (String c s) =
     if is_space c then
       match span_space s with
       | S n => Some (S (S n))
       | 0 => if with_tab && Ascii.eqb c tab then Some 1 else None
       end
     else None) ->
  cells <> [] -> Forall (fun c => is_cell c = true) cells ->
  scan r 0 (str_join "  " cells) = cells.
Proof.
  intros Hr. induction cells as [|x cells IH]; [congruence|]. intros _ H.
  inversion H as [|? ? Hx Hcells]; subst.
  pose proof (is_cell_inv x Hx) as (Hd & Ht & _ & _ & _ & Hl).
  destruct cells as [|y ys].
  - apply (scan_plain r with_tab Hr); auto.
  - rewrite str_join_cons.
    rewrite (scan_around_run r with_tab x "  " _ Hr Hl eq_refl (le_n 2)).
    + rewrite (scan_plain r with_tab Hr x Hd (fun _ => Ht)).
      rewrite IH by (try discriminate; assumption). reflexivity.
    + apply str_join_first_space; [discriminate | assumption].
Qed.

Lemma cells_line_no_newline cells :
  Forall (fun c => is_cell c = true) cells ->
  has_char nl (str_join "  " cells) = false.
Proof.
  induction cells as [|x cells IH]; [reflexivity|]. intros H.
  inversion H as [|? ? Hx Hcells]; subst.
  pose proof (is_cell_inv x Hx) as (_ & _ & Hn & _).
  destruct cells as [|y ys]; [exact Hn|].
  rewrite str_join_cons, !has_char_app, Hn, (IH Hcells). reflexivity.
Qed.

(** X4: round trip: a table with at least one column, rows of equal length and
    cells of plain text that neither contain a newline nor start or end
    with whitespace, written with two spaces between cells and a newline
    between rows, is read back whole: the first row as the column names
    and every row, the first included, as a parsed line. *)
Theorem render_then_validate header rest :
  header <> [] ->
  Forall (fun row => length row = length header) rest ->
  Forall (Forall (fun c => is_cell c = true)) (header :: rest) ->
  validate_paste (render (header :: rest)) = Ok (header, header :: rest).
Proof.
  intros Hne Hlen Hcells.
  assert (Rows : Forall (fun row => row <> [] /\ length row = length header /\
                                    Forall (fun c => is_cell c = true) row)
                        (header :: rest)).
  { apply Forall_forall. intros row Hrow. rewrite Forall_forall in Hcells.
    split; [|split; [|now apply Hcells]].
    - destruct Hrow as [<-|Hrow]; [exact Hne|].
      rewrite Forall_forall in Hlen. specialize (Hlen row Hrow).
      destruct row; [|discriminate]. destruct header; [congruence | discriminate].
    - destruct Hrow as [<-|Hrow]; [reflexivity|].
      rewrite Forall_forall in Hlen. now apply Hlen. }
  assert (Lines : str_split nl (render (header :: rest))
                  = map (str_join "  ") (header :: rest)).
  { unfold render. apply str_split_join; [discriminate|].
    apply Forall_forall. intros l Hl. apply in_map_iff in Hl as (row & <- & Hrow).
    rewrite Forall_forall in Rows. apply cells_line_no_newline, (Rows row Hrow). }
  rewrite validate_paste_eq, Lines. cbn [map nth].
  assert (Col : re_split col_re (str_join "  " header) = header).
  { apply (split_cells col_re false header col_re_matches Hne).
    now inversion Hcells. }
  assert (Row : forall row, In row (header :: rest) ->
                            re_split row_re (str_join "  " row) = row).
  { intros row Hrow. rewrite Forall_forall in Rows.
    destruct (Rows row Hrow) as (Hr & _ & Hc).
    exact (split_cells row_re true row row_re_matches Hr Hc). }
  rewrite Col.
  replace (forallb _ _) with true.
  - f_equal. f_equal.
    change (re_split row_re (str_join "  " header) :: map (re_split row_re) (map (str_join "  ") rest))
      with (map (re_split row_re) (map (str_join "  ") (header :: rest))).
    rewrite map_map. rewrite <- (map_id (header :: rest)) at 2.
    apply map_ext_in. exact Row.
  - symmetry.
    change (str_join "  " header :: map (str_join "  ") rest)
      with (map (str_join "  ") (header :: rest)).
    apply forallb_forall. intros l Hl.
    apply in_map_iff in Hl as (row & <- & Hrow).
    unfold fits. rewrite (Row row Hrow). apply Nat.eqb_eq.
    rewrite Forall_forall in Rows. now destruct (Rows row Hrow) as (_ & -> & _).
Qed.

Lemma render_then_validate_witness :
  render [["City"; "State"]; ["New York"; "NY"]]
    = ("City  State" ++ str nl ++ "New York  NY")%string /\
  validate_paste (render [["City"; "State"]; ["New York"; "NY"]])
    = Ok (["City"; "State"], [["City"; "State"]; ["New York"; "NY"]]).
Proof.
  split; [reflexivity|].
  apply (render_then_validate ["City"; "State"] [["New York"; "NY"]]).
  - discriminate.
  - repeat constructor.
  - repeat constructor.
Defined.

(** ** check_dialect, row by row *)


Section SnifferSteps.

Variable detect : string -> string -> option dialect.
Variable row_gen : Type.
Variable reader : dialect -> row_gen.
Variable next : row_gen -> file -> step * row_gen * file.

Lemma check_rows_advance n prev g f :
  exists k, k <= n /\
    snd (check_rows row_gen next n prev g f) = snd (advance row_gen next k g f).
Proof.
  revert prev g f; induction n as [|n IH]; intros prev g f.
  - exists 0. split; [lia | reflexivity].
  - cbn [check_rows].
    assert (One : forall o g' f', next g f = (o, g', f') ->
                    f' = snd (advance row_gen next 1 g f)).
    { intros o g' f' E. cbn [advance]. now rewrite E. }
    destruct (next g f) as [[o g'] f'] eqn:E.
    destruct o as [row| |].
    + assert (Go : forall prev', exists k, k <= S n /\
                     snd (check_rows row_gen next n prev' g' f')
                     = snd (advance row_gen next k g f)).
      { intros prev'. destruct (IH prev' g' f') as (k & Hk & Ek).
        exists (S k). split; [lia|]. cbn [advance]. now rewrite E. }
      destruct prev as [p|]; [|apply Go].
      destruct (negb (p =? length row)%nat); [|apply Go].
      exists 1. split; [lia|]. exact (One _ _ _ eq_refl).
    + exists 1. split; [lia|]. exact (One _ _ _ eq_refl).
    + exists 1. split; [lia|]. exact (One _ _ _ eq_refl).
Qed.

(** X9: [check_dialect] calls [next] at most [CHECK_ROWS] times: the file it
    leaves is the file after some [k <= CHECK_ROWS] steps of the reader,
    however long the file is. *)
Theorem check_dialect_reads_at_most_CHECK_ROWS f d :
  exists k, k <= CHECK_ROWS /\
    snd (check_dialect row_gen reader next f d)
    = snd (advance row_gen next k (reader d) f).
Proof. apply check_rows_advance. Qed.

(** Rows of the expected width are read through. *)
Lemma check_rows_prefix_some k m p g f rows g' f' :
  yields row_gen next k g f = Some (rows, g', f') ->
  forallb (fun row => (length row =? p)%nat) rows = true ->
  check_rows row_gen next (k + m) (Some p) g f
  = check_rows row_gen next m (Some p) g' f'.
Proof.
  revert g f rows; induction k as [|k IH]; intros g f rows H W.
  - inversion H; subst. reflexivity.
  - cbn [yields] in H. cbn [Nat.add check_rows].
    destruct (next g f) as [[[row| |] g1] f1]; try discriminate.
    destruct (yields row_gen next k g1 f1) as [[[rows1 g2] f2]|] eqn:Y;
      [|discriminate].
    inversion H; subst. cbn [forallb] in W.
    apply andb_true_iff in W as [W0 W].
    rewrite Nat.eqb_sym in W0. rewrite W0. cbn [negb].
    now apply (IH g1 f1 rows1).
Qed.

Lemma check_rows_prefix_none k m g f rows g' f' :
  rows <> [] ->
  yields row_gen next k g f = Some (rows, g', f') ->
  same_width rows = true ->
  check_rows row_gen next (k + m) None g f
  = check_rows row_gen next m (Some (length (nth 0 rows []))) g' f'.
Proof.
  intros Hne H W. destruct k as [|k].
  - inversion H; subst. congruence.
  - cbn [yields] in H. cbn [Nat.add check_rows].
    destruct (next g f) as [[[row| |] g1] f1]; try discriminate.
    destruct (yields row_gen next k g1 f1) as [[[rows1 g2] f2]|] eqn:Y;
      [|discriminate].
    inversion H; subst. unfold same_width in W. cbn [nth forallb] in *.
    apply andb_true_iff in W as [_ W].
    now apply (check_rows_prefix_some k m (length row) g1 f1 rows1).
Qed.

Lemma check_dialect_parser_error f0 d k rows g' f' g'' f'' :
  yields row_gen next k (reader d) f0 = Some (rows, g', f') ->
  same_width rows = true ->
  k < CHECK_ROWS ->
  next g' f' = (ParserError, g'', f'') ->
  check_dialect row_gen reader next f0 d = (Raise CsvError, f'').
Proof.
  intros Y W K E. unfold check_dialect.
  replace CHECK_ROWS with (k + S (CHECK_ROWS - S k)) by lia.
  destruct rows as [|r0 rows].
  - destruct k as [|k].
    + inversion Y; subst. cbn [Nat.add check_rows]. now rewrite E.
    + cbn [yields] in Y.
      destruct (next (reader d) f0) as [[[row| |] g1] f1]; try discriminate.
      destruct (yields row_gen next k g1 f1) as [[[rows1 g2] f2]|]; discriminate.
  - rewrite (check_rows_prefix_none k _ _ _ (r0 :: rows) g' f') by
      (try discriminate; assumption).
    cbn [check_rows]. now rewrite E.
Qed.

(** X10: a parser error met before any row of a different width is not turned
    into a verdict: it leaves [check_dialect], and [get_sv_dialect], as
    clevercsv's [Error], with the file where the failing [next] left it. *)
Theorem parser_error_escapes f d k rows g' f' g'' f'' :
  detect (fst (read SAMPLE_SIZE f)) ALLOWED_DELIMITERS = Some d ->
  yields row_gen next k (reader d) (seek 0 (snd (read SAMPLE_SIZE f)))
    = Some (rows, g', f') ->
  same_width rows = true ->
  k < CHECK_ROWS ->
  next g' f' = (ParserError, g'', f'') ->
  check_dialect row_gen reader next (seek 0 (snd (read SAMPLE_SIZE f))) d
    = (Raise CsvError, f'') /\
  get_sv_dialect detect row_gen reader next f = (Raise CsvError, f'').
Proof.
  intros D Y W K E.
  pose proof (check_dialect_parser_error _ d k rows g' f' g'' f'' Y W K E) as C.
  split; [exact C|].
  unfold get_sv_dialect.
  destruct (read SAMPLE_SIZE f) as [sample f1]. cbn [fst snd] in *.
  now rewrite D, C.
Qed.

(** X11: the first row whose width differs from the first row's ends the check
    at once: the answer is [False] and the reader is not called again. *)
Theorem width_mismatch_stops_reading f d k rows g' f' row g'' f'' :
  rows <> [] ->
  yields row_gen next k (reader d) f = Some (rows, g', f') ->
  same_width rows = true ->
  k < CHECK_ROWS ->
  next g' f' = (Yield row, g'', f'') ->
  length row <> length (nth 0 rows []) ->
  check_dialect row_gen reader next f d = (Ok false, f'').
Proof.
  intros Hne Y W K E Hrow. unfold check_dialect.
  replace CHECK_ROWS with (k + S (CHECK_ROWS - S k)) by lia.
  rewrite (check_rows_prefix_none k _ _ _ rows g' f') by assumption.
  cbn [check_rows]. rewrite E.
  replace (length (nth 0 rows []) =? length row)%nat with false; [reflexivity|].
  symmetry. apply Nat.eqb_neq. congruence.
Qed.

(** X12: a file of at most one row, an empty file included, passes for every
    dialect. *)
Theorem at_most_one_row_passes f d rows :
  first_rows row_gen next CHECK_ROWS (reader d) f = Some rows ->
  length rows <= 1 ->
  fst (check_dialect row_gen reader next f d) = Ok true.
Proof.
  intros H L. unfold check_dialect.
  rewrite (check_rows_none row_gen next _ _ _ rows H).
  destruct rows as [|r0 [|r1 rows]]; [reflexivity| |simpl in L; lia].
  unfold same_width. simpl. now rewrite Nat.eqb_refl.
Qed.

(** X13: [get_sv_dialect] returns a dialect exactly when the detector proposes
    it for the sample and [check_dialect], run from offset 0, accepts it. *)
Theorem get_sv_dialect_returns_iff f d :
  fst (get_sv_dialect detect row_gen reader next f) = Ok d <->
  detect (fst (read SAMPLE_SIZE f)) ALLOWED_DELIMITERS = Some d /\
  fst (check_dialect row_gen reader next (seek 0 (snd (read SAMPLE_SIZE f))) d)
    = Ok true.
Proof.
  unfold get_sv_dialect.
  destruct (read SAMPLE_SIZE f) as [sample f1]. cbn [fst snd].
  destruct (detect sample ALLOWED_DELIMITERS) as [d'|].
  - destruct (check_dialect row_gen reader next (seek 0 f1) d') as [[[|]|e] f3] eqn:C;
      cbn [fst]; split.
    + intros H; inversion H; subst. rewrite C. auto.
    + intros [H _]; inversion H; subst. reflexivity.
    + discriminate.
    + intros [H1 H2]; inversion H1; subst. rewrite C in H2. discriminate.
    + discriminate.
    + intros [H1 H2]; inversion H1; subst. rewrite C in H2. discriminate.
  - split; [discriminate | intros [H _]; discriminate].
Qed.


End SnifferSteps.

Lemma parser_error_escapes_witness :
  let script := [Yield ["a"; "b"]; Yield ["c"; "d"]; ParserError] in
  let f := File ("a,b" ++ str nl ++ "c,d" ++ str nl ++ "e") 0 in
  Script.check_dialect script (seek 0 (snd (read SAMPLE_SIZE f))) (SimpleDialect "," "" "")
    = (Raise CsvError, File (content f) 3) /\
  Script.get_sv_dialect script f = (Raise CsvError, File (content f) 3).
Proof.
  intros script f.
  apply (parser_error_escapes Plain.detect (list step) (Script.reader script)
           Script.next f (SimpleDialect "," "" "") 2
           [["a"; "b"]; ["c"; "d"]] [ParserError] (File (content f) 2)
           [] (File (content f) 3)).
  - reflexivity.
  - reflexivity.
  - reflexivity.
  - unfold CHECK_ROWS. lia.
  - reflexivity.
Defined.

Lemma width_mismatch_stops_reading_witness :
  let script := [Yield ["a"; "b"]; Yield ["c"]; ParserError] in
  Script.check_dialect script (File "" 0) (SimpleDialect "," "" "")
    = (Ok false, File "" 2).
Proof.
  intros script.
  apply (width_mismatch_stops_reading (list step) (Script.reader script)
           Script.next (File "" 0) (SimpleDialect "," "" "") 1
           [["a"; "b"]] [Yield ["c"]; ParserError] (File "" 1)
           ["c"] [ParserError] (File "" 2)).
  - discriminate.
  - reflexivity.
  - reflexivity.
  - unfold CHECK_ROWS. lia.
  - reflexivity.
  - simpl. lia.
Defined.

Lemma at_most_one_row_passes_witness :
  fst (Plain.check_dialect (File "" 0) (SimpleDialect "," "" "")) = Ok true /\
  fst (Plain.check_dialect (File "a,b,c" 0) (SimpleDialect ":" "" "")) = Ok true.
Proof.
  split.
  - apply (at_most_one_row_passes dialect Plain.reader Plain.next
             (File "" 0) (SimpleDialect "," "" "") []); [reflexivity | simpl; lia].
  - apply (at_most_one_row_passes dialect Plain.reader Plain.next
             (File "a,b,c" 0) (SimpleDialect ":" "" "") [["a,b,c"]]);
      [reflexivity | simpl; lia].
Defined.


(** ** create_db_table_from_paste *)

Lemma lone_tab_header_raises raw a b :
  nth 0 (str_split nl raw) "" = (a ++ String tab b)%string ->
  last_space a = false -> first_space b = false ->
  validate_paste raw = Raise InvalidPasteError.
Proof.
  intros E Ha Hb.
  pose proof (lone_tab_fields a b Ha Hb) as L. rewrite <- E in L.
  rewrite validate_paste_eq.
  destruct (str_split nl raw) as [|l0 ls] eqn:S;
    [exfalso; exact (str_split_nonempty _ _ S)|].
  cbn [nth] in *. cbn [forallb]. unfold fits at 1.
  replace (length (re_split row_re l0) =? length (re_split col_re l0))%nat with false;
    [reflexivity|].
  symmetry. apply Nat.eqb_neq. lia.
Qed.

Section PasteFacts.

Variable database : Type.
Variable engine : Type.
Variable table : Type.
Variable create_mathesar_engine : string -> engine.
Variable create_string_column_table :
  string -> string -> list string -> engine -> database -> table * database.
Variable create_records_from_paste :
  table -> engine -> list (list string) -> list string -> database -> database.

Local Abbreviation create :=
  (create_db_table_from_paste database engine table
     create_mathesar_engine create_string_column_table create_records_from_paste).

(** X16: a header line with a tab that no whitespace touches, as in text copied
    with tabs between the columns, creates no table. *)
Theorem tab_separated_header_creates_nothing raw name sch db a b :
  nth 0 (str_split nl raw) "" = (a ++ String tab b)%string ->
  last_space a = false -> first_space b = false ->
  create raw name sch db = (Raise InvalidPasteError, db).
Proof.
  intros E Ha Hb. unfold create_db_table_from_paste.
  now rewrite (lone_tab_header_raises raw a b E Ha Hb).
Qed.

(** X17: on a valid paste the table is created with the column names of the
    first line, and the record loader is handed every line, the header line
    first: its first row is the list of column names itself. *)
Theorem paste_table_loads_header_row raw name sch db column_names lines :
  validate_paste raw = Ok (column_names, lines) ->
  exists rest,
    lines = column_names :: rest /\
    create raw name sch db =
      (let eng := create_mathesar_engine (database_name sch) in
       let (tbl, db1) :=
         create_string_column_table name (schema_name sch) column_names eng db in
       (Ok tbl,
        create_records_from_paste tbl eng (column_names :: rest) column_names db1)).
Proof.
  intros H.
  pose proof (validate_paste_ok _ _ _ H) as (l0 & ls & _ & _ & Hc & Hl & _).
  assert (R : lines = column_names :: map (re_split row_re) ls)
    by (rewrite Hl, Hc; reflexivity).
  exists (map (re_split row_re) ls). split; [exact R|].
  unfold create_db_table_from_paste. rewrite H, <- R. reflexivity.
Qed.

End PasteFacts.

Lemma tab_separated_header_creates_nothing_witness :
  MemDb.create_db_table_from_paste
    ("Name" ++ str tab ++ "Age" ++ str nl ++ "Alice" ++ str tab ++ "30")
    "people" (Schema "public" "db") []
  = (Raise InvalidPasteError, []).
Proof.
  apply (tab_separated_header_creates_nothing (list MemDb.table) string MemDb.table
           MemDb.create_mathesar_engine MemDb.create_string_column_table
           MemDb.create_records_from_paste _ "people" (Schema "public" "db") []
           "Name" "Age");
    reflexivity.
Defined.

Lemma paste_table_loads_header_row_witness :
  let raw := ("Name  Age" ++ str nl ++ "Alice  30")%string in
  MemDb.create_db_table_from_paste raw "people" (Schema "public" "db") []
    = (Ok (MemDb.Table "people" "public" ["Name"; "Age"] []),
       [MemDb.Table "people" "public" ["Name"; "Age"]
          [["Name"; "Age"]; ["Alice"; "30"]]]) /\
  exists rest,
    [["Name"; "Age"]; ["Alice"; "30"]] = ["Name"; "Age"] :: rest /\
    MemDb.create_db_table_from_paste raw "people" (Schema "public" "db") [] =
      (let eng := MemDb.create_mathesar_engine (database_name (Schema "public" "db")) in
       let (tbl, db1) :=
         MemDb.create_string_column_table "people"
           (schema_name (Schema "public" "db")) ["Name"; "Age"] eng [] in
       (Ok tbl,
        MemDb.create_records_from_paste tbl eng (["Name"; "Age"] :: rest)
          ["Name"; "Age"] db1)).
Proof.
  intros raw. split; [reflexivity|].
  apply (paste_table_loads_header_row (list MemDb.table) string MemDb.table
           MemDb.create_mathesar_engine MemDb.create_string_column_table
           MemDb.create_records_from_paste raw "people" (Schema "public" "db") []
           ["Name"; "Age"] [["Name"; "Age"]; ["Alice"; "30"]]).
  reflexivity.
Defined.

(** ** user_directory_path *)

(** X18: an upload with a relative file name goes under the directory of its
    user: [anonymous/<filename>] when the instance has no user,
    [<username>/<filename>] when it has one (with a user name that is not
    empty and does not end with a slash). *)
Theorem upload_goes_under_user_directory filename :
  startswith_sep filename = false ->
  user_directory_path (Instance None) filename = ("anonymous/" ++ filename)%string /\
  forall u, username u <> "" -> endswith_sep (username u) = false ->
    user_directory_path (Instance (Some u)) filename
    = (username u ++ "/" ++ filename)%string.
Proof.
  intros Hf. unfold user_directory_path, path_join, user_identifier.
  cbn [user]. rewrite Hf.
  split; [reflexivity|].
  intros u Hne He. rewrite He.
  destruct (username u); [congruence | reflexivity].
Qed.

Lemma upload_goes_under_user_directory_witness :
  user_directory_path (Instance None) "data.csv" = ("anonymous/" ++ "data.csv")%string /\
  forall u, username u <> "" -> endswith_sep (username u) = false ->
    user_directory_path (Instance (Some u)) "data.csv"
    = (username u ++ "/" ++ "data.csv")%string.
Proof.
  apply (upload_goes_under_user_directory "data.csv"). reflexivity.
Defined.

(** X19: a file name that starts with a slash is returned as it is: the user
    directory is dropped from the path. *)
Theorem absolute_filename_drops_user_directory inst filename :
  startswith_sep filename = true ->
  user_directory_path inst filename = filename.
Proof.
  intros Hf. unfold user_directory_path, path_join. now rewrite Hf.
Qed.

Lemma absolute_filename_drops_user_directory_witness :
  user_directory_path (Instance (Some (User "alice"))) "/etc/passwd" = "/etc/passwd".
Proof.
  apply absolute_filename_drops_user_directory. reflexivity.
Defined.

(** X20: whatever the user and the file name, the path ends with the file name,
    and what precedes a relative file name starts with the user
    identifier and adds at most one slash to it. *)
Theorem user_directory_path_shape inst filename :
  (exists prefix, user_directory_path inst filename = (prefix ++ filename)%string) /\
  (startswith_sep filename = false ->
   user_directory_path inst filename = (user_identifier inst ++ filename)%string \/
   user_directory_path inst filename = (user_identifier inst ++ "/" ++ filename)%string).
Proof.
  unfold user_directory_path, path_join. split.
  - destruct (startswith_sep filename).
    + exists "". reflexivity.
    + destruct ((String.length (user_identifier inst) =? 0)%nat
                || endswith_sep (user_identifier inst)).
      * exists (user_identifier inst). reflexivity.
      * exists (user_identifier inst ++ "/")%string. now rewrite string_app_assoc.
  - intros ->.
    destruct ((String.length (user_identifier inst) =? 0)%nat
              || endswith_sep (user_identifier inst));
      auto.
Qed.

(** ** update_sa_table *)

Section UpdateFacts.

Variable value : Type.
Variable sa_engine : Type.
Variable SUPPORTED_TABLE_UPDATE_ARGS : list string.

Lemma supported_In arg :
  supported SUPPORTED_TABLE_UPDATE_ARGS arg = true <->
  In arg SUPPORTED_TABLE_UPDATE_ARGS.
Proof.
  unfold supported. rewrite existsb_exists. split.
  - intros (x & Hin & E). apply String.eqb_eq in E. now subst.
  - intros Hin. exists arg. split; [assumption | apply String.eqb_refl].
Qed.

Lemma unsupported_args_In (data : list (string * value)) arg :
  In arg (unsupported_args SUPPORTED_TABLE_UPDATE_ARGS data) <->
  In arg (map fst data) /\ ~ In arg SUPPORTED_TABLE_UPDATE_ARGS.
Proof.
  unfold unsupported_args. rewrite filter_In, nodup_In, negb_true_iff.
  rewrite <- supported_In.
  destruct (supported SUPPORTED_TABLE_UPDATE_ARGS arg); intuition congruence.
Qed.

(** X21: [update_sa_table] calls [update_table], with the table's name, schema
    name and engine and with the data as given, exactly when every key of
    the data is a supported argument; it raises a [ValidationError] exactly
    when some key is not. *)
Theorem update_sa_table_calls_iff (t : sa_table sa_engine) (data : list (string * value)) :
  (update_sa_table SUPPORTED_TABLE_UPDATE_ARGS t data
     = UpdateTable (table_name t) (table_schema_name t) (table_sa_engine t) data
   <-> forall arg, In arg (map fst data) -> In arg SUPPORTED_TABLE_UPDATE_ARGS) /\
  ((exists errors, update_sa_table SUPPORTED_TABLE_UPDATE_ARGS t data
                   = ValidationError errors)
   <-> exists arg, In arg (map fst data) /\ ~ In arg SUPPORTED_TABLE_UPDATE_ARGS).
Proof.
  unfold update_sa_table.
  destruct (unsupported_args SUPPORTED_TABLE_UPDATE_ARGS data) as [|a l] eqn:E; cbn [map].
  - assert (A : forall arg, In arg (map fst data) -> In arg SUPPORTED_TABLE_UPDATE_ARGS).
    { intros arg Hin.
      destruct (in_dec string_dec arg SUPPORTED_TABLE_UPDATE_ARGS) as [|No]; [assumption|].
      exfalso. assert (B : In arg []) by (rewrite <- E; now apply unsupported_args_In).
      exact B. }
    split; split; auto.
    + intros (errors & H). discriminate.
    + intros (arg & Hin & No). exfalso. auto.
  - assert (A : In a (map fst data) /\ ~ In a SUPPORTED_TABLE_UPDATE_ARGS).
    { apply unsupported_args_In. rewrite E. now left. }
    split; split.
    + discriminate.
    + intros All. exfalso. destruct A as [Hin No]. auto.
    + intros _. exists a. exact A.
    + intros _. eexists. reflexivity.
Qed.

(** X22: the dictionary of the [ValidationError] has one entry for each key of
    the data that is not a supported argument, and no other; the entry of
    [arg] reads "Updating <arg> for tables is not supported.". *)
Theorem update_sa_table_errors (t : sa_table sa_engine) (data : list (string * value)) errors :
  update_sa_table SUPPORTED_TABLE_UPDATE_ARGS t data = ValidationError errors ->
  NoDup (map fst errors) /\
  forall arg msg,
    In (arg, msg) errors <->
    In arg (map fst data) /\ ~ In arg SUPPORTED_TABLE_UPDATE_ARGS /\
    msg = ("Updating " ++ arg ++ " for tables is not supported.")%string.
Proof.
  unfold update_sa_table.
  set (message := fun arg : string =>
         (arg, ("Updating " ++ arg ++ " for tables is not supported.")%string)).
  destruct (map message (unsupported_args SUPPORTED_TABLE_UPDATE_ARGS data))
    as [|e es] eqn:E; [discriminate|].
  intros H; inversion H; subst errors; clear H. rewrite <- E. split.
  - rewrite map_map. cbn [message fst]. rewrite map_id.
    unfold unsupported_args. apply NoDup_filter, NoDup_nodup.
  - intros arg msg. rewrite in_map_iff. split.
    + intros (x & Hx & Hin). inversion Hx; subst.
      apply unsupported_args_In in Hin. tauto.
    + intros (Hin & No & ->). exists arg. split; [reflexivity|].
      apply unsupported_args_In. auto.
Qed.

End UpdateFacts.

Lemma update_sa_table_errors_witness :
  let data := [("name", "people"); ("oid", "7")] in
  update_sa_table ["name"] (SaTable string "t" "public" "engine") data
    = ValidationError [("oid", "Updating oid for tables is not supported.")] /\
  NoDup (map fst [("oid", "Updating oid for tables is not supported.")]) /\
  forall arg msg,
    In (arg, msg) [("oid", "Updating oid for tables is not supported.")] <->
    In arg (map fst data) /\ ~ In arg ["name"] /\
    msg = ("Updating " ++ arg ++ " for tables is not supported.")%string.
Proof.
  intros data. split; [reflexivity|].
  apply (update_sa_table_errors string string ["name"]
           (SaTable string "t" "public" "engine") data).
  reflexivity.
Defined.

(** ** Only a sample of the rows is checked *)

Section SnifferSample.

Variable row_gen : Type.
Variable reader : dialect -> row_gen.
Variable next : row_gen -> file -> step * row_gen * file.

Lemma yields_length k g f rows g' f' :
  yields row_gen next k g f = Some (rows, g', f') -> length rows = k.
Proof.
  revert g f rows; induction k as [|k IH]; intros g f rows H.
  - inversion H. reflexivity.
  - cbn [yields] in H.
    destruct (next g f) as [[[row| |] g1] f1]; try discriminate.
    destruct (yields row_gen next k g1 f1) as [[[rows1 g2] f2]|] eqn:Y;
      [|discriminate].
    inversion H; subst. simpl. f_equal. exact (IH _ _ _ Y).
Qed.

(** X23: when the first [CHECK_ROWS] rows have the same width,
    [check_dialect] returns [True] and leaves the file where the last of
    them was read: later rows are never read, so a later row of another
    width, or a parser error further down, does not make it fail. *)
Theorem rows_after_the_sample_are_not_checked f d rows g' f' :
  yields row_gen next CHECK_ROWS (reader d) f = Some (rows, g', f') ->
  same_width rows = true ->
  check_dialect row_gen reader next f d = (Ok true, f').
Proof.
  intros Y W. unfold check_dialect.
  assert (Hne : rows <> []).
  { intros ->. apply yields_length in Y. discriminate. }
  replace CHECK_ROWS with (CHECK_ROWS + 0) at 1 by lia.
  rewrite (check_rows_prefix_none row_gen next CHECK_ROWS 0 _ _ rows g' f' Hne Y W).
  reflexivity.
Qed.

End SnifferSample.

Lemma rows_after_the_sample_are_not_checked_witness :
  let script := repeat (Yield ["a"; "b"]) 10 ++ [Yield ["c"]; ParserError] in
  Script.check_dialect script (File "" 0) (SimpleDialect "," "" "")
    = (Ok true, File "" 10).
Proof.
  intros script.
  apply (rows_after_the_sample_are_not_checked (list step) (Script.reader script)
           Script.next (File "" 0) (SimpleDialect "," "" "")
           (repeat ["a"; "b"] 10) [Yield ["c"]; ParserError] (File "" 10));
    reflexivity.
Defined.
